(** * Brave Search research agent: embedding and verified properties

    A shallow embedding of [brave_search_agent] (tools.py, settings.py,
    dependencies.py, agent.py).  Python values are modelled as follows:

    - [str] is a sequence of Unicode code points ([list N]);
    - [int] is [Z];
    - a decoded JSON document is the inductive [json], a [dict] being a
      finite map from [str] keys;
    - a call that may raise returns an [outcome];
    - a coroutine that performs I/O returns the list of effects it performed
      (its trace) together with its outcome. *)

From Stdlib Require Import ZArith Ascii String List Lia SpecFloat.
From stdpp Require Import base option list gmap pretty.

Local Open Scope Z_scope.

(** ** Python strings *)

Module PyStr.

Definition char := N.
Definition str := list N.

(** A literal of the source, as the code points of its characters (all
    literals of the program are ASCII). *)
Definition lit (s : string) : str := N_of_ascii <$> list_ascii_of_string s.

(** The line feed written [\n] in the source. *)
Definition nl : str := [10%N].

(** [str.isspace] on one character: the code points CPython treats as
    whitespace. *)
Definition is_space (c : char) : bool :=
  ((9 <=? c) && (c <=? 13) || (28 <=? c) && (c <=? 32)
   || (c =? 133) || (c =? 160) || (c =? 5760)
   || (8192 <=? c) && (c <=? 8202)
   || (c =? 8232) || (c =? 8233) || (c =? 8239) || (c =? 8287)
   || (c =? 12288))%N.

Fixpoint lstrip (s : str) : str :=
  match s with
  | c :: s' => if is_space c then lstrip s' else s
  | [] => []
  end.

Definition rstrip (s : str) : str := rev (lstrip (rev s)).

(** [s.strip()] *)
Definition strip (s : str) : str := rstrip (lstrip s).

(** Truth value of a string: [bool(s)]. *)
Definition truthy (s : str) : bool :=
  match s with [] => false | _ => true end.

(** [s == ""] *)
Definition is_empty (s : str) : bool := negb (truthy s).

(** [str(n)] for an [int]: its decimal digits, with a sign when negative.
    (CPython refuses to print an [int] of more than 4300 digits; status
    codes, counts and decoded JSON integers stay below that.) *)
Definition of_Z (z : Z) : str := lit (pretty z).

(** [s[:n]] *)
Definition slice_to (n : nat) (s : str) : str := take n s.

(** [sub in s] *)
Fixpoint starts_with (sub s : str) : bool :=
  match sub, s with
  | [], _ => true
  | a :: sub', b :: s' => (a =? b)%N && starts_with sub' s'
  | _ :: _, [] => false
  end.

Fixpoint contains (sub s : str) : bool :=
  starts_with sub s ||
  match s with
  | [] => false
  | _ :: s' => contains sub s'
  end.

(** What the specification calls "empty or whitespace-only". *)
Definition blank (s : str) : Prop := Forall (fun c => is_space c = true) s.

(** [x] occurs in [s] as a contiguous run of characters. *)
Definition occurs_in (x s : str) : Prop := exists pre post, s = pre ++ x ++ post.

End PyStr.
Import PyStr.

(** ** Exceptions and outcomes *)

(** An exception as far as the handlers of the program can tell exceptions
    apart: whether it is an instance of [asyncio.TimeoutError], of
    [Exception] but not [asyncio.TimeoutError], or only of [BaseException]
    ([KeyboardInterrupt], [asyncio.CancelledError], [SystemExit]); and its
    text [str(e)]. *)
Inductive exc_class := AsyncioTimeoutError | OrdinaryException | BaseExceptionOnly.

Record exn := Exn { exn_class : exc_class; exn_str : str }.

Definition AttributeError (msg : str) : exn := Exn OrdinaryException msg.
Definition TypeError (msg : str) : exn := Exn OrdinaryException msg.
Definition ValueError (msg : str) : exn := Exn OrdinaryException msg.

Inductive outcome (A : Type) : Type :=
| Ret (a : A)
| Raise (e : exn).
Arguments Ret {A} a.
Arguments Raise {A} e.

#[global] Instance outcome_ret : MRet outcome := fun A a => Ret a.
#[global] Instance outcome_bind : MBind outcome := fun A B f m =>
  match m with
  | Ret a => f a
  | Raise e => Raise e
  end.

Definition returns {A} (o : outcome A) : Prop := exists a, o = Ret a.
Definition raises {A} (o : outcome A) : Prop := exists e, o = Raise e.

(** ** Decoded JSON *)

(** A value produced by [response.json()]: [None], [bool], [int], [float],
    [str], [list] or [dict]. *)
#[warnings="-register-all"] Inductive json :=
| JNull
| JBool (b : bool)
| JInt (z : Z)
| JFloat (f : spec_float)
| JStr (s : str)
| JArr (l : list json)
| JObj (m : gmap str json).

Module Json.

(** [type(v).__name__] *)
Definition type_name (v : json) : str :=
  match v with
  | JNull => lit "NoneType"
  | JBool _ => lit "bool"
  | JInt _ => lit "int"
  | JFloat _ => lit "float"
  | JStr _ => lit "str"
  | JArr _ => lit "list"
  | JObj _ => lit "dict"
  end.

(** [bool(v)], as tested by [if not v]. *)
Definition truthy (v : json) : bool :=
  match v with
  | JNull => false
  | JBool b => b
  | JInt z => negb (z =? 0)
  | JFloat (S754_zero _) => false
  | JFloat _ => true
  | JStr s => PyStr.truthy s
  | JArr l => match l with [] => false | _ => true end
  | JObj m => match map_to_list m with [] => false | _ => true end
  end.

Definition no_attribute (v : json) (attr : string) : exn :=
  AttributeError (lit "'" ++ type_name v ++ lit "' object has no attribute '"
                  ++ lit attr ++ lit "'").

(** [v.get(key, dflt)]: only a [dict] has a [get] method. *)
Definition get (v : json) (key : str) (dflt : json) : outcome json :=
  match v with
  | JObj m => Ret (default dflt (m !! key))
  | _ => Raise (no_attribute v "get")
  end.

(** The elements [for ... in v] iterates over: the items of a list, the
    keys of a dict, the characters of a string; other values are not
    iterable. *)
Definition iter (v : json) : outcome (list json) :=
  match v with
  | JArr l => Ret l
  | JObj m => Ret (JStr <$> (map_to_list m).*1)
  | JStr s => Ret ((fun c => JStr [c]) <$> s)
  | _ => Raise (TypeError (lit "'" ++ type_name v ++ lit "' object is not iterable"))
  end.

(** [len(v)] *)
Definition len (v : json) : outcome Z :=
  match v with
  | JArr l => Ret (Z.of_nat (length l))
  | JObj m => Ret (Z.of_nat (size m))
  | JStr s => Ret (Z.of_nat (length s))
  | _ => Raise (TypeError (lit "object of type '" ++ type_name v ++ lit "' has no len()"))
  end.

End Json.

(** ** Effects *)

Inductive log_level := INFO | WARNING | ERROR.

(** The arguments of the one call [session.get(url, headers=..., params=...)]
    of the program. *)
Record request := Request {
  req_url : str;
  hdr_x_subscription_token : str;
  hdr_accept : str;
  param_q : str;
  param_count : Z;
  param_search_lang : str
}.

(** What the program does to the outside world, in program order. *)
Inductive event :=
| EvLimiterEnter              (* [search_rate_limiter.__aenter__]: acquire *)
| EvLimiterExit               (* [search_rate_limiter.__aexit__] *)
| EvLog (lvl : log_level) (msg : str)
| EvGet (r : request)         (* [await session.get(...)] *)
| EvClientCreate              (* [httpx.AsyncClient(...)] *)
| EvAgentRun (query : str)    (* [research_agent.run] / [run_sync] *)
| EvClientClose.              (* [await session.aclose()] *)

Definition is_get (ev : event) : bool :=
  match ev with EvGet _ => true | _ => false end.

(** A computation: the effects performed, then a value or an exception. *)
Definition io (A : Type) : Type := list event * outcome A.

#[global] Instance io_ret : MRet io := fun A a => ([], Ret a).
#[global] Instance io_bind : MBind io := fun A B f m =>
  match m with
  | (t, Ret a) => let '(t', o) := f a in (t ++ t', o)
  | (t, Raise e) => (t, Raise e)
  end.

Definition trace {A} (m : io A) : list event := m.1.
Definition result {A} (m : io A) : outcome A := m.2.

Definition emit (ev : event) : io unit := ([ev], Ret tt).
Definition lift {A} (o : outcome A) : io A := ([], o).
Definition log (lvl : log_level) (msg : str) : io unit := emit (EvLog lvl msg).

(** [try: body  except ...: handler e]; a handler re-raises what no
    [except] clause matches. *)
Definition try_except {A} (body : io A) (handler : exn -> io A) : io A :=
  match body with
  | (t, Ret a) => (t, Ret a)
  | (t, Raise e) => let '(t', o) := handler e in (t ++ t', o)
  end.

(** [try: body  finally: cleanup]: the cleanup runs on both exits; an
    exception raised by the cleanup replaces the outcome of the body. *)
Definition try_finally {A} (body : io A) (cleanup : io unit) : io A :=
  let '(t, o) := body in
  match cleanup with
  | (t', Ret _) => (t ++ t', o)
  | (t', Raise e) => (t ++ t', Raise e)
  end.

(** [async with search_rate_limiter: body] for a call that is granted its
    slot: [__aenter__] has returned, the body runs, and leaving the block
    runs [__aexit__], which does not swallow an exception of the body. *)
Definition with_rate_limiter {A} (body : io A) : io A :=
  let '(t, o) := body in (EvLimiterEnter :: t ++ [EvLimiterExit], o).

(** [async with search_rate_limiter: body], the wait for the slot included.
    [acquire] is the outcome of awaiting [__aenter__]: the slot, or the
    exception that reached the coroutine while it waited (the cancellation
    of its task).  In the second case the slot is not held, the body does
    not run and [__aexit__] is not called. *)
Definition async_with_limiter {A} (acquire : outcome unit) (body : io A) : io A :=
  match acquire with
  | Ret _ => with_rate_limiter body
  | Raise e => ([], Raise e)
  end.

(** ** The HTTP session *)

(** An [httpx.Response] as far as the program reads it. *)
Record response := Response {
  status_code : Z;
  text : str;
  json_body : outcome json      (* the outcome of calling [response.json()] *)
}.

(** The behaviour of [session.get]: a response, or an exception. *)
Definition session := request -> outcome response.

(** An [httpx.AsyncClient]: its [get] and the outcome of its [aclose()]. *)
Record client := Client {
  client_get : session;
  client_aclose : outcome unit
}.

Definition session_get (s : session) (r : request) : io response :=
  ([EvGet r], s r).

(** ** tools.py *)

Module Tools.

Definition SEARCH_URL : str := lit "https://api.search.brave.com/res/v1/web/search".

Definition MSG_KEY_REQUIRED : str := lit "Error: Brave API key is required".
Definition MSG_QUERY_EMPTY : str := lit "Error: Search query cannot be empty".
Definition MSG_RATE_LIMITED : str :=
  lit "Error: Rate limit exceeded. Please try again in a moment.".
Definition MSG_INVALID_KEY : str :=
  lit "Error: Invalid Brave API key. Please check your configuration.".
Definition MSG_TIMEOUT : str := lit "Error: Search request timed out".

Definition msg_no_results (query : str) : str :=
  lit "No search results found for query: " ++ query.
Definition msg_failed (e : exn) : str :=
  lit "Error: " ++ (lit "Search failed: " ++ exn_str e).
Definition header (query : str) : str :=
  lit "Search Results for '" ++ query ++ lit "':" ++ nl ++ nl.

Section WithRepr.

(** CPython's [str(v)] for a [float], a [list] or a [dict] (a builtin,
    not code of this program). *)
Variable py_repr : json -> str.

(** A value interpolated in an f-string: [format(v, "")], that is [str(v)]. *)
Definition format_value (v : json) : str :=
  match v with
  | JStr s => s
  | JNull => lit "None"
  | JBool true => lit "True"
  | JBool false => lit "False"
  | JInt z => of_Z z
  | _ => py_repr v
  end.

(** The three lines appended to [result_text] for result number [i]. *)
Definition format_entry (i : Z) (title url description : json) : str :=
  (of_Z i ++ lit ". **" ++ format_value title ++ lit "**" ++ nl)
  ++ (lit "   URL: " ++ format_value url ++ nl)
  ++ (lit "   " ++ format_value description ++ nl ++ nl).

(** The body of [for i, result in enumerate(web_results, 1)], from
    index [i] on, with [result_text] as accumulated so far. *)
Fixpoint format_loop (i : Z) (results : list json) (result_text : str)
  : outcome str :=
  match results with
  | [] => Ret result_text
  | r :: rest =>
      title ← Json.get r (lit "title") (JStr (lit "No title"));
      url ← Json.get r (lit "url") (JStr (lit "No URL"));
      description ← Json.get r (lit "description") (JStr (lit "No description"));
      format_loop (i + 1) rest (result_text ++ format_entry i title url description)
  end.

(** The two [except] clauses of the [try] block. *)
Definition handler (e : exn) : io str :=
  match exn_class e with
  | AsyncioTimeoutError =>
      let error_msg := lit "Search request timed out" in
      log ERROR error_msg;;
      mret (lit "Error: " ++ error_msg)
  | OrdinaryException =>
      let error_msg := lit "Search failed: " ++ exn_str e in
      log ERROR (lit "Error during Brave search: " ++ exn_str e);;
      mret (lit "Error: " ++ error_msg)
  | BaseExceptionOnly => lift (Raise e)
  end.

(** What follows [response = await session.get(...)] inside the [try]. *)
Definition handle_response (query : str) (resp : response) : io str :=
  if status_code resp =? 429 then
    log WARNING (lit "Rate limit exceeded for Brave API");;
    mret MSG_RATE_LIMITED
  else if status_code resp =? 401 then
    log ERROR (lit "Invalid Brave API key");;
    mret MSG_INVALID_KEY
  else if negb (status_code resp =? 200) then
    let error_msg := lit "Brave API returned " ++ of_Z (status_code resp)
                     ++ lit ": " ++ slice_to 200 (text resp) in
    log ERROR error_msg;;
    mret (lit "Error: " ++ error_msg)
  else
    data ← lift (json_body resp);
    web ← lift (Json.get data (lit "web") (JObj ∅));
    web_results ← lift (Json.get web (lit "results") (JArr []));
    if negb (Json.truthy web_results) then
      mret (lit "No search results found for query: " ++ query)
    else
      items ← lift (Json.iter web_results);
      result_text ← lift (format_loop 1 items (header query));
      n ← lift (Json.len web_results);
      log INFO (lit "Found " ++ of_Z n ++ lit " results for query: " ++ query);;
      mret result_text.

(** The body of [brave_search_tool].  [acquire] is the outcome of entering
    [async with search_rate_limiter], which the source places after the two
    guards and the clamp and outside the [try]. *)
Definition brave_search_tool_awaiting (acquire : outcome unit)
    (api_key : str) (sess : session) (query : str) (max_results : Z) : io str :=
  if negb (truthy api_key) || negb (truthy (strip api_key)) then
    mret MSG_KEY_REQUIRED
  else if negb (truthy query) || negb (truthy (strip query)) then
    mret MSG_QUERY_EMPTY
  else
    let max_results := Z.min (Z.max max_results 1) 20 in
    async_with_limiter acquire
      (try_except
         (log INFO (lit "Searching Brave for: " ++ query ++ lit " (max_results: "
                    ++ of_Z max_results ++ lit ")");;
          resp ← session_get sess
                   (Request SEARCH_URL api_key (lit "application/json")
                            query max_results (lit "en"));
          handle_response query resp)
         handler).

(** [brave_search_tool] in a call that is granted its slot of the limiter. *)
Definition brave_search_tool
    (api_key : str) (sess : session) (query : str) (max_results : Z) : io str :=
  brave_search_tool_awaiting (Ret tt) api_key sess query max_results.

End WithRepr.

End Tools.

(** ** settings.py *)

Module Config.

Record Settings := {
  llm_provider : str;
  llm_api_key : str;
  llm_model : str;
  llm_base_url : str;
  brave_api_key : str;
  brave_search_url : str;
  app_env : str;
  log_level : str;
  debug : bool
}.

(** The variables [Settings()] sees when it is called: the process
    environment after [load_dotenv()] together with the [.env] file, names
    lower-cased ([case_sensitive=False]). *)
Abbreviation environ := (gmap str str).

Inductive error_kind :=
| Missing                      (* a required field has no value *)
| ValidatorError (msg : str)   (* a field validator raised [ValueError] *)
| BoolParsing.                 (* a [bool] field holds no boolean literal *)

Definition field_error : Type := str * error_kind.

(** The field validator of [llm_api_key] and [brave_api_key]. *)
Definition validate_api_keys (v : str) : outcome str :=
  if negb (truthy v) || is_empty (strip v) then
    Raise (ValueError (lit "API key cannot be empty"))
  else Ret v.

Definition ascii_lower (c : char) : char :=
  if ((65 <=? c) && (c <=? 90))%N then (c + 32)%N else c.

Definition eq_ignore_ascii_case (a : str) (b : string) : bool :=
  bool_decide (ascii_lower <$> a = ascii_lower <$> lit b).

(** How pydantic reads a [bool] field from a string (library code): the
    literals it accepts, compared without regard to ASCII case. *)
Definition parse_bool (v : str) : option bool :=
  if bool_decide (v = lit "0")
     || eq_ignore_ascii_case v "f" || eq_ignore_ascii_case v "n"
     || eq_ignore_ascii_case v "no" || eq_ignore_ascii_case v "off"
     || eq_ignore_ascii_case v "false" then Some false
  else if bool_decide (v = lit "1")
     || eq_ignore_ascii_case v "t" || eq_ignore_ascii_case v "y"
     || eq_ignore_ascii_case v "on" || eq_ignore_ascii_case v "yes"
     || eq_ignore_ascii_case v "true" then Some true
  else None.

(** A [str] field with a default. *)
Definition str_field (env : environ) (name : string) (dflt : string) : str :=
  default (lit dflt) (env !! lit name).

(** A required [str] field ([Field(...)]) guarded by [validate_api_keys]. *)
Definition api_key_field (env : environ) (name : string)
  : list field_error + str :=
  match env !! lit name with
  | None => inl [(lit name, Missing)]
  | Some v =>
      match validate_api_keys v with
      | Ret v' => inr v'
      | Raise e => inl [(lit name, ValidatorError (exn_str e))]
      end
  end.

(** A [bool] field with a default. *)
Definition bool_field (env : environ) (name : string) (dflt : bool)
  : list field_error + bool :=
  match env !! lit name with
  | None => inr dflt
  | Some v =>
      match parse_bool v with
      | Some b => inr b
      | None => inl [(lit name, BoolParsing)]
      end
  end.

Definition errors_of {A} (r : list field_error + A) : list field_error :=
  match r with inl errs => errs | inr _ => [] end.

(** The validation errors [Settings()] reports, in field order. *)
Definition validation_errors (env : environ) : list field_error :=
  errors_of (api_key_field env "llm_api_key")
  ++ errors_of (api_key_field env "brave_api_key")
  ++ errors_of (bool_field env "debug" false).

Definition HINT_LLM : str :=
  nl ++ lit "Make sure to set LLM_API_KEY in your .env file".
Definition HINT_BRAVE : str :=
  nl ++ lit "Make sure to set BRAVE_API_KEY in your .env file".

Section WithPydantic.

(** The text [str(e)] of a pydantic [ValidationError], and [str.lower]
    (library code, not code of this program). *)
Variable validation_error_str : environ -> list field_error -> str.
Variable py_lower : str -> str.

(** [Settings()]: every field is read and validated; the errors of all
    fields are raised together as one [ValidationError]. *)
Definition Settings_init (env : environ) : outcome Settings :=
  match api_key_field env "llm_api_key",
        api_key_field env "brave_api_key",
        bool_field env "debug" false with
  | inr llm_key, inr brave_key, inr dbg =>
      Ret {| llm_provider := str_field env "llm_provider" "openai";
             llm_api_key := llm_key;
             llm_model := str_field env "llm_model" "gpt-4o";
             llm_base_url := str_field env "llm_base_url" "https://api.openai.com/v1";
             brave_api_key := brave_key;
             brave_search_url :=
               str_field env "brave_search_url"
                         "https://api.search.brave.com/res/v1/web/search";
             app_env := str_field env "app_env" "development";
             log_level := str_field env "log_level" "INFO";
             debug := dbg |}
  | _, _, _ =>
      Raise (Exn OrdinaryException
                 (validation_error_str env (validation_errors env)))
  end.

Definition load_settings (env : environ) : outcome Settings :=
  match Settings_init env with
  | Ret s => Ret s
  | Raise e =>
      match exn_class e with
      | BaseExceptionOnly => Raise e
      | _ =>
          let error_msg := lit "Failed to load settings: " ++ exn_str e in
          let error_msg :=
            if contains (lit "llm_api_key") (py_lower (exn_str e))
            then error_msg ++ HINT_LLM else error_msg in
          let error_msg :=
            if contains (lit "brave_api_key") (py_lower (exn_str e))
            then error_msg ++ HINT_BRAVE else error_msg in
          Raise (ValueError error_msg)
      end
  end.

End WithPydantic.

End Config.

(** ** dependencies.py *)

Module Dependencies.

Record BraveSearchDependencies := {
  brave_api_key : str;
  session : client;
  session_id : option str
}.

Section WithPydantic.

Variable validation_error_str : Config.environ -> list Config.field_error -> str.
Variable py_lower : str -> str.

(** [BraveSearchDependencies.create]: the settings are loaded first, then
    the HTTP client [new_client] is constructed. *)
Definition create (env : Config.environ) (new_client : client)
    (session_id : option str) : io BraveSearchDependencies :=
  settings ← lift (Config.load_settings validation_error_str py_lower env);
  emit EvClientCreate;;
  mret {| brave_api_key := Config.brave_api_key settings;
          session := new_client;
          session_id := session_id |}.

End WithPydantic.

(** [close]: [await self.session.aclose()] *)
Definition close (deps : BraveSearchDependencies) : io unit :=
  emit EvClientClose;;
  lift (client_aclose (session deps)).

End Dependencies.

(** ** agent.py *)

Module Agent.

Import Dependencies.

Section WithRuntime.

Variable py_repr : json -> str.
Variable validation_error_str : Config.environ -> list Config.field_error -> str.
Variable py_lower : str -> str.

(** The model loop of the agent framework, [research_agent.run] and
    [research_agent.run_sync], followed by reading [result.data]: any
    effects, then the final text or an exception. *)
Variable agent_run : str -> BraveSearchDependencies -> io str.
Variable agent_run_sync : str -> BraveSearchDependencies -> io str.

(** The body of [search_web], the tool registered with the agent; [deps]
    is [ctx.deps].  The function bound to the global name
    [brave_search_tool] when the body runs is a parameter: it is called
    with the keywords [api_key], [session], [query] and [max_results]. *)
Definition search_web_calling
    (brave_search_tool : str -> (request -> outcome response) -> str -> Z -> io str)
    (deps : BraveSearchDependencies) (query : str) (max_results : Z) : io str :=
  try_except
    (let max_results := Z.min (Z.max max_results 1) 20 in
     log INFO (lit "Agent executing search for: " ++ query);;
     results ← brave_search_tool (brave_api_key deps)
                 (client_get (session deps)) query max_results;
     mret results)
    (fun e =>
       match exn_class e with
       | BaseExceptionOnly => lift (Raise e)
       | _ =>
           let error_msg := lit "Web search failed: " ++ exn_str e in
           log ERROR error_msg;;
           mret error_msg
       end).

(** [search_web] as it is imported: the name is bound to the tool of
    tools.py. *)
Definition search_web (deps : BraveSearchDependencies)
    (query : str) (max_results : Z) : io str :=
  search_web_calling (Tools.brave_search_tool py_repr) deps query max_results.

Definition run_research (env : Config.environ) (new_client : client)
    (query : str) (session_id : option str) (max_results : Z) : io str :=
  deps ← create validation_error_str py_lower env new_client session_id;
  try_finally
    (emit (EvAgentRun query);; agent_run query deps)
    (close deps).

Definition run_research_sync (env : Config.environ) (new_client : client)
    (query : str) (session_id : option str) (max_results : Z) : io str :=
  deps ← create validation_error_str py_lower env new_client session_id;
  try_finally
    (emit (EvAgentRun query);; agent_run_sync query deps)
    (close deps).

End WithRuntime.

End Agent.

(** ** Vocabulary of the statements *)

Module Spec.

Definition is_log (ev : event) : bool :=
  match ev with EvLog _ _ => true | _ => false end.

(** The number of HTTP GETs in a trace. *)
Definition count_gets (t : list event) : nat := length (List.filter is_get t).

(** Every GET of the trace asks for [c] results. *)
Definition gets_have_count (c : Z) (t : list event) : Prop :=
  Forall (fun ev => match ev with EvGet r => param_count r = c | _ => True end) t.

(** The line [brave_search_tool] logs before its request. *)
Definition search_log (query : str) (max_results : Z) : event :=
  EvLog INFO (lit "Searching Brave for: " ++ query ++ lit " (max_results: "
              ++ of_Z (Z.min (Z.max max_results 1) 20) ++ lit ")").

(** The GET that [brave_search_tool] sends for its arguments. *)
Definition search_request (api_key query : str) (max_results : Z) : request :=
  Request Tools.SEARCH_URL api_key (lit "application/json") query
          (Z.min (Z.max max_results 1) 20) (lit "en").

Section Report.

Variable py_repr : json -> str.

(** A field of a result as printed: its value, or the placeholder when
    the result has no such field. *)
Definition field (o : gmap str json) (name placeholder : string) : str :=
  match o !! lit name with
  | Some v => Tools.format_value py_repr v
  | None => lit placeholder
  end.

(** The entry of the result [o] numbered [i]. *)
Definition entry (i : Z) (o : gmap str json) : str :=
  of_Z i ++ lit ". **" ++ field o "title" "No title" ++ lit "**" ++ nl
  ++ lit "   URL: " ++ field o "url" "No URL" ++ nl
  ++ lit "   " ++ field o "description" "No description" ++ nl ++ nl.

(** The report: the header naming the query, then one entry per result,
    numbered from 1, in the order of the list. *)
Definition report (query : str) (objs : list (gmap str json)) : str :=
  Tools.header query ++ mjoin (imap (fun i o => entry (Z.of_nat i + 1) o) objs).

End Report.

Section Digest.

Variable py_repr : json -> str.

(** A value of a result as a reader of the report sees it: a text as it
    is, [null] as [None], a boolean as [True] or [False], an integer in
    decimal, and any other value as Python prints it. *)
Definition shown (v : json) : str :=
  match v with
  | JStr s => s
  | JNull => lit "None"
  | JBool b => if b then lit "True" else lit "False"
  | JInt z => of_Z z
  | JFloat _ | JArr _ | JObj _ => py_repr v
  end.

(** The field [name] of the result [o] as shown, and [placeholder] when
    the result has no such field. *)
Definition shown_field (o : gmap str json) (name placeholder : string) : str :=
  from_option shown (lit placeholder) (o !! lit name).

(** The entry of the result [o] under the number [i]: the number and the
    title in bold, the URL, the description, and an empty line. *)
Definition numbered_entry (i : Z) (o : gmap str json) : str :=
  of_Z i ++ lit ". **" ++ shown_field o "title" "No title" ++ lit "**" ++ nl
  ++ lit "   URL: " ++ shown_field o "url" "No URL" ++ nl
  ++ lit "   " ++ shown_field o "description" "No description" ++ nl
  ++ nl.

(** One entry per result, numbered from 1, in the order of the list. *)
Definition numbered_entries (objs : list (gmap str json)) : str :=
  mjoin (imap (fun i o => numbered_entry (Z.of_nat i + 1) o) objs).

End Digest.

(** The fixed shape [data.web.results]: [data] is an object whose ["web"]
    is an object whose ["results"] is the list of the objects [objs]. *)
Definition web_results (data : json) (objs : list (gmap str json)) : Prop :=
  exists d w, data = JObj d /\ d !! lit "web" = Some (JObj w)
              /\ w !! lit "results" = Some (JArr (JObj <$> objs)).

(** The results are absent: [data] has no ["web"], or its ["web"] has no
    ["results"]. *)
Definition web_results_absent (data : json) : Prop :=
  exists d, data = JObj d
            /\ (d !! lit "web" = None
                \/ exists w, d !! lit "web" = Some (JObj w)
                             /\ w !! lit "results" = None).


(** The timeout distinction as the specification words it, for the
    outcome [out] of a call whose request raised [e]. *)
Definition timeout_distinction_claimed (e : exn) (out : outcome str) : Prop :=
  (exn_class e = AsyncioTimeoutError -> out = Ret Tools.MSG_TIMEOUT)
  /\ (exn_class e <> AsyncioTimeoutError -> out = Ret (Tools.msg_failed e)).


(** Settings: a required key that is set and not empty. *)
Definition present_non_empty (env : Config.environ) (name : string) : Prop :=
  exists v, env !! lit name = Some v /\ v <> [].

(** Settings: a required key that is set and neither empty nor
    whitespace-only. *)
Definition present_non_blank (env : Config.environ) (name : string) : Prop :=
  exists v, env !! lit name = Some v /\ ~ blank v.

(** Settings: a required key that is missing, empty or whitespace-only. *)
Definition missing_or_blank (env : Config.environ) (name : string) : Prop :=
  env !! lit name = None \/ exists v, env !! lit name = Some v /\ blank v.

(** Settings: [DEBUG] is unset or holds a boolean literal. *)
Definition debug_parses (env : Config.environ) : Prop :=
  match env !! lit "debug" with
  | None => True
  | Some v => is_Some (Config.parse_bool v)
  end.

(** Settings: every field validates. *)
Definition settings_valid (env : Config.environ) : Prop :=
  present_non_blank env "llm_api_key" /\ present_non_blank env "brave_api_key"
  /\ debug_parses env.

(** The behaviour of the loader as the specification words it. *)
Definition loader_claimed (env : Config.environ)
    (out : outcome Config.Settings) : Prop :=
  (present_non_empty env "llm_api_key" /\ present_non_empty env "brave_api_key"
   -> returns out)
  /\ (missing_or_blank env "llm_api_key" \/ missing_or_blank env "brave_api_key"
      -> raises out).

(** Stand-ins for the library renderers in the concrete runs below: none
    of these runs prints a float, a list or a dict, and of a failed load
    only the fact that it raises is stated. *)
Definition no_repr : json -> str := fun _ => [].
Definition no_error_text : Config.environ -> list Config.field_error -> str :=
  fun _ _ => [].
Definition no_lower : str -> str := fun s => s.

End Spec.

(** ** Concrete inputs, after the test suite of the repository *)

Module Examples.

Definition key : str := lit "test_key".
Definition query : str := lit "test query".

(** A session that answers every request with [resp]. *)
Definition sess_of (resp : response) : session := fun _ => Ret resp.
(** A session whose [get] raises [e]. *)
Definition sess_raising (e : exn) : session := fun _ => Raise e.

Definition JSONDecodeError : exn :=
  ValueError (lit "Expecting value: line 1 column 1 (char 0)").
Definition timeout_error : exn := Exn AsyncioTimeoutError [].
Definition cancelled_error : exn := Exn BaseExceptionOnly [].
Definition keyboard_interrupt : exn := Exn BaseExceptionOnly [].




(** The two results of [test_successful_search]. *)
Definition result_1 : gmap str json :=
  {[ lit "title" := JStr (lit "Test Result 1");
     lit "url" := JStr (lit "https://example.com/1");
     lit "description" := JStr (lit "First test result") ]}.
Definition result_2 : gmap str json :=
  {[ lit "title" := JStr (lit "Test Result 2");
     lit "url" := JStr (lit "https://example.com/2");
     lit "description" := JStr (lit "Second test result") ]}.

Definition body_of (results : json) : json :=
  JObj {[ lit "web" := JObj {[ lit "results" := results ]} ]}.

Definition resp_two_results : response :=
  Response 200 [] (Ret (body_of (JArr [JObj result_1; JObj result_2]))).

(** A result list holding [null], as a body of the wrong shape. *)
Definition resp_null_result : response :=
  Response 200 [] (Ret (body_of (JArr [JNull]))).

(** Both keys set, [DEBUG] not a boolean. *)
Definition env_bad_debug : Config.environ :=
  {[ lit "llm_api_key" := lit "test_llm_key";
     lit "brave_api_key" := lit "test_brave_key";
     lit "debug" := lit "maybe" ]}.

(** Both keys set, one of them three spaces (as in
    [test_empty_api_keys_validation]). *)
Definition env_blank_key : Config.environ :=
  {[ lit "llm_api_key" := lit "test_llm_key";
     lit "brave_api_key" := lit "   " ]}.

(** Both keys set (as in [test_load_settings_success]). *)
Definition env_good : Config.environ :=
  {[ lit "llm_api_key" := lit "test_llm_key";
     lit "brave_api_key" := lit "test_brave_key" ]}.

End Examples.

(** ** validate_agent.py *)

Module Validate.

(** What the script asks of the file system, relative to its own directory:
    [os.path.exists(path)], and the text [open(path, 'r')] followed by
    [read()] gives, or the exception either raises. *)
Record filesystem := {
  path_exists : str -> bool;
  read_text : str -> outcome str
}.

(** A function of the script: the lines it prints, then its value or an
    exception. *)
Definition script (A : Type) : Type := list str * outcome A.

#[global] Instance script_ret : MRet script := fun A a => ([], Ret a).
#[global] Instance script_bind : MBind script := fun A B f m =>
  match m with
  | (t, Ret a) => let '(t', o) := f a in (t ++ t', o)
  | (t, Raise e) => (t, Raise e)
  end.

Definition stdout {A} (m : script A) : list str := m.1.
Definition returned {A} (m : script A) : outcome A := m.2.
Definition print (line : str) : script unit := ([line], Ret tt).
Definition eval {A} (o : outcome A) : script A := ([], o).

(** [try: body  except Exception as e: handler e] *)
Definition try_except_Exception {A} (body : script A) (handler : exn -> script A)
  : script A :=
  match body with
  | (t, Ret a) => (t, Ret a)
  | (t, Raise e) =>
      match exn_class e with
      | BaseExceptionOnly => (t, Raise e)
      | _ => let '(t', o) := handler e in (t ++ t', o)
      end
  end.

(** The pictographs of the messages, as code points. *)
Definition MAGNIFIER : str := [128269%N].
Definition CROSS : str := [10060%N].
Definition CHECK : str := [9989%N].
Definition ROCKET : str := [128640%N].
Definition CHART : str := [128202%N].
Definition PARTY : str := [127881%N].
Definition WARNING_SIGN : str := [9888%N; 65039%N].

(** [sep.join(items)] *)
Fixpoint join (sep : str) (items : list str) : str :=
  match items with
  | [] => []
  | [x] => x
  | x :: rest => x ++ sep ++ join sep rest
  end.

(** [str(names)] for a list of the file names of the script (no quote, no
    backslash, printable ASCII): each in single quotes. *)
Definition repr_names (names : list str) : str :=
  lit "[" ++ join (lit ", ") ((fun n => lit "'" ++ n ++ lit "'") <$> names) ++ lit "]".

(** [f"{name:<20}"] *)
Definition ljust (width : nat) (s : str) : str :=
  s ++ replicate (width - length s) 32%N.

Definition REQUIRED_FILES : list str :=
  lit <$> ["agent.py"; "tools.py"; "settings.py"; "dependencies.py"; "providers.py";
           "__init__.py"; ".env.example"; ".gitignore"; "requirements.txt"]%string.

Definition validate_agent_structure (fs : filesystem) : script bool :=
  print (MAGNIFIER ++ lit " Validating Agent Structure...");;
  let missing_files := List.filter (fun file => negb (path_exists fs file)) REQUIRED_FILES in
  match missing_files with
  | _ :: _ =>
      print (CROSS ++ lit " Missing files: " ++ repr_names missing_files);;
      mret false
  | [] =>
      print (CHECK ++ lit " All required files present");;
      mret true
  end.

Definition FILES_TO_CHECK : list str :=
  lit <$> ["agent.py"; "tools.py"; "settings.py"; "dependencies.py"; "providers.py"]%string.

(** The texts asserted of each file, by the [if]/[elif] chain on its name. *)
Definition import_patterns (file : str) : list str :=
  if bool_decide (file = lit "agent.py") then
    lit <$> ["from pydantic_ai import Agent, RunContext"; "@research_agent.tool";
             "search_web"]%string
  else if bool_decide (file = lit "tools.py") then
    lit <$> ["aiolimiter import AsyncLimiter"; "search_rate_limiter";
             "async def brave_search_tool"]%string
  else if bool_decide (file = lit "settings.py") then
    lit <$> ["load_dotenv"; "BaseSettings"; "brave_api_key"]%string
  else if bool_decide (file = lit "dependencies.py") then
    lit <$> ["BraveSearchDependencies"; "httpx.AsyncClient"]%string
  else if bool_decide (file = lit "providers.py") then
    lit <$> ["get_llm_model"; "OpenAIModel"]%string
  else [].

(** A bare [assert] that failed: its text is empty. *)
Definition AssertionError : exn := Exn OrdinaryException [].

(** [assert p in content] for each pattern in turn. *)
Fixpoint assert_all (patterns : list str) (content : str) : outcome unit :=
  match patterns with
  | [] => Ret tt
  | p :: rest =>
      if contains p content then assert_all rest content else Raise AssertionError
  end.

(** The loop of [validate_imports] over the files still to check; the body
    yields [true] to go on and [false] where the function returns [False]. *)
Fixpoint imports_loop (fs : filesystem) (files : list str) : script bool :=
  match files with
  | [] => mret true
  | file :: rest =>
      go_on ← try_except_Exception
                (content ← eval (read_text fs file);
                 eval (assert_all (import_patterns file) content);;
                 print (CHECK ++ lit " " ++ file ++ lit " structure valid");;
                 mret true)
                (fun e =>
                   print (CROSS ++ lit " " ++ file ++ lit " validation failed: "
                          ++ exn_str e);;
                   mret false);
      if go_on : bool then imports_loop fs rest else mret false
  end.

Definition validate_imports (fs : filesystem) : script bool :=
  print (MAGNIFIER ++ lit " Validating Import Structure...");;
  imports_loop fs FILES_TO_CHECK.

(** The second component of a check of [validate_agent_pattern]: a text,
    or the [bool] the source computes in place of one. *)
Inductive pattern := PStr (s : str) | PBool (b : bool).

(** [pattern not in content]; a [bool] on the left of [in] is a
    [TypeError]. *)
Definition not_in (p : pattern) (content : str) : outcome bool :=
  match p with
  | PStr s => Ret (negb (contains s content))
  | PBool _ =>
      Raise (TypeError (lit "'in <string>' requires string as left operand, not bool"))
  end.

Definition agent_checks (content : str) : list (str * pattern) :=
  [ (lit "Agent creation", PStr (lit "research_agent = Agent("));
    (lit "System prompt", PStr (lit "SYSTEM_PROMPT ="));
    (lit "Tool decorator", PStr (lit "@research_agent.tool"));
    (lit "RunContext usage", PStr (lit "RunContext[BraveSearchDependencies]"));
    (lit "Async tool function", PStr (lit "async def search_web("));
    (lit "String return type", PStr (lit "-> str:"));
    (lit "Error handling",
     PBool (contains (lit "try:") content && contains (lit "except") content));
    (lit "Dependency injection", PStr (lit "ctx.deps.brave_api_key"));
    (lit "Rate limiting", PStr (lit "max_results = min(max(max_results, 1), 20)")) ].

(** The loop over the checks: [False] at the first pattern not found. *)
Fixpoint pattern_loop (checks : list (str * pattern)) (content : str) : script bool :=
  match checks with
  | [] => mret true
  | (check_name, p) :: rest =>
      missing ← eval (not_in p content);
      if missing : bool then
        print (CROSS ++ lit " Missing pattern: " ++ check_name);;
        mret false
      else
        print (CHECK ++ lit " " ++ check_name ++ lit " pattern found");;
        pattern_loop rest content
  end.

Definition validate_agent_pattern (fs : filesystem) : script bool :=
  print (MAGNIFIER ++ lit " Validating Agent Pattern...");;
  try_except_Exception
    (content ← eval (read_text fs (lit "agent.py"));
     pattern_loop (agent_checks content) content)
    (fun e =>
       print (CROSS ++ lit " Agent pattern validation failed: " ++ exn_str e);;
       mret false).

Definition TEST_FILES : list str :=
  lit <$> ["tests/test_agent.py"; "tests/test_tools.py"; "tests/test_settings.py";
           "tests/test_dependencies.py"; "tests/test_providers.py"]%string.

Definition has_test_pattern (content : str) : bool :=
  contains (lit "TestModel") content || contains (lit "FunctionModel") content
  || contains (lit "@pytest.mark.asyncio") content.

Fixpoint tests_loop (fs : filesystem) (files : list str) : script bool :=
  match files with
  | [] => mret true
  | test_file :: rest =>
      if negb (path_exists fs test_file) then
        print (CROSS ++ lit " Missing test file: " ++ test_file);;
        mret false
      else
        content ← eval (read_text fs test_file);
        if has_test_pattern content then
          print (CHECK ++ lit " " ++ test_file ++ lit " has proper test patterns");;
          tests_loop fs rest
        else
          print (CROSS ++ lit " " ++ test_file ++ lit " missing test patterns");;
          mret false
  end.

Definition validate_test_structure (fs : filesystem) : script bool :=
  print (MAGNIFIER ++ lit " Validating Test Structure...");;
  tests_loop fs TEST_FILES.

Section WithRuntime.

(** [str.lower], and the two validations that run under [unittest.mock]
    patches (library code): what they print and return. *)
Variable py_lower : str -> str.
Variable validate_settings_logic : script bool.
Variable validate_tools_logic : script bool.

Definition SECRET_FILES : list str := lit <$> ["agent.py"; "tools.py"; "settings.py"]%string.

(** The text [api_key = ] followed by a double quote. *)
Definition ASSIGNED_KEY : str := lit "api_key = " ++ [34%N].

(** The loop over the three sources: the checks appended, and whether
    [secret_check] is still [True]. *)
Fixpoint secrets_loop (fs : filesystem) (files : list str)
    (checks : list str) (secret_check : bool) : script (list str * bool) :=
  match files with
  | [] => mret (checks, secret_check)
  | file :: rest =>
      text ← eval (read_text fs file);
      let content := py_lower text in
      if contains (lit "sk-") content || contains ASSIGNED_KEY content then
        secrets_loop fs rest
          (checks ++ [CROSS ++ lit " Potential hardcoded secret in " ++ file]) false
      else secrets_loop fs rest checks secret_check
  end.

Fixpoint print_all (lines : list str) : script unit :=
  match lines with
  | [] => mret tt
  | line :: rest => print line;; print_all rest
  end.

Definition validate_security_patterns (fs : filesystem) : script bool :=
  print (MAGNIFIER ++ lit " Validating Security Patterns...");;
  let checks := [] in
  checks ←
    (if path_exists fs (lit ".env.example") then
       env_content ← eval (read_text fs (lit ".env.example"));
       if contains (lit "LLM_API_KEY") env_content
          && contains (lit "BRAVE_API_KEY") env_content
       then mret (checks ++ [CHECK ++ lit " .env.example template present"])
       else mret (checks ++ [CROSS ++ lit " .env.example missing required keys"])
     else mret (checks ++ [CROSS ++ lit " .env.example missing"]));
  checks ←
    (if path_exists fs (lit ".gitignore") then
       gitignore_content ← eval (read_text fs (lit ".gitignore"));
       if contains (lit ".env") gitignore_content
          && contains (lit "*.env") gitignore_content
       then mret (checks ++ [CHECK ++ lit " .gitignore excludes environment files"])
       else mret (checks ++ [CROSS ++ lit " .gitignore missing environment exclusions"])
     else mret (checks ++ [CROSS ++ lit " .gitignore missing"]));
  '(checks, secret_check) ← secrets_loop fs SECRET_FILES checks true;
  let checks :=
    if secret_check : bool then checks ++ [CHECK ++ lit " No hardcoded secrets detected"]
    else checks in
  print_all checks;;
  mret (forallb (contains CHECK) checks).

(** The summary loop of [main]: one line per validation, and the counts. *)
Fixpoint summary_loop (validations : list (str * bool)) (passed failed : Z)
  : script (Z * Z) :=
  match validations with
  | [] => mret (passed, failed)
  | (name, ok) :: rest =>
      let status := if ok then CHECK ++ lit " PASS" else CROSS ++ lit " FAIL" in
      print (ljust 20 name ++ lit " " ++ status);;
      if ok then summary_loop rest (passed + 1) failed
      else summary_loop rest passed (failed + 1)
  end.

Definition main (fs : filesystem) : script bool :=
  print (ROCKET ++ lit " Starting Brave Search Research Agent Validation" ++ nl);;
  r1 ← validate_agent_structure fs;
  r2 ← validate_imports fs;
  r3 ← validate_settings_logic;
  r4 ← validate_tools_logic;
  r5 ← validate_agent_pattern fs;
  r6 ← validate_security_patterns fs;
  r7 ← validate_test_structure fs;
  let validations :=
    [ (lit "Agent Structure", r1); (lit "Import Structure", r2);
      (lit "Settings Logic", r3); (lit "Tools Logic", r4);
      (lit "Agent Pattern", r5); (lit "Security Patterns", r6);
      (lit "Test Structure", r7) ] in
  print (nl ++ CHART ++ lit " Validation Summary:");;
  print (replicate 50 61%N);;
  '(passed, failed) ← summary_loop validations 0 0;
  print (replicate 50 61%N);;
  print (lit "Total: " ++ of_Z passed ++ lit " passed, " ++ of_Z failed ++ lit " failed");;
  if failed =? 0 then
    print (PARTY ++ lit " All validations passed! Agent implementation is complete.");;
    mret true
  else
    print (WARNING_SIGN ++ lit "  Some validations failed. Please review the implementation.");;
    mret false.

End WithRuntime.

(** A file system given by the files it holds: a path exists when it has a
    text, and reading one that has none is a [FileNotFoundError]. *)
Definition fs_of (files : gmap str str) : filesystem :=
  {| path_exists := fun p => bool_decide (is_Some (files !! p));
     read_text := fun p =>
       match files !! p with
       | Some text => Ret text
       | None =>
           Raise (Exn OrdinaryException
                      (lit "[Errno 2] No such file or directory: '" ++ p ++ lit "'"))
       end |}.

(** A file passes [validate_imports] when it can be read and holds every
    text asserted of it. *)
Definition import_ok (fs : filesystem) (file : str) : Prop :=
  exists content,
    read_text fs file = Ret content
    /\ Forall (fun p => contains p content = true) (import_patterns file).

(** A source passes the search for secrets: it can be read and, lower-cased,
    holds neither [sk-] nor an assigned [api_key]. *)
Definition source_clean (py_lower : str -> str) (fs : filesystem) (file : str) : Prop :=
  exists text, read_text fs file = Ret text
               /\ contains (lit "sk-") (py_lower text) = false
               /\ contains ASSIGNED_KEY (py_lower text) = false.

End Validate.

(** ** Further concrete inputs *)

Module Scenarios.

Import Examples.

(** A list of results whose second item is [null]. *)
Definition resp_bad_item : response :=
  Response 200 [] (Ret (body_of (JArr [JObj result_1; JNull; JObj result_2]))).

(** ["results": null] *)
Definition resp_null_results : response := Response 200 [] (Ret (body_of JNull)).

(** ["web": null] *)
Definition body_null_web : json := JObj {[ lit "web" := JNull ]}.
Definition resp_null_web : response := Response 200 [] (Ret body_null_web).

(** Both keys set, the Brave key with blanks around it. *)
Definition env_padded_key : Config.environ :=
  {[ lit "llm_api_key" := lit "test_llm_key";
     lit "brave_api_key" := lit "  test_brave_key " ]}.

(** The settings of [Examples.env_good]. *)
Definition good_settings : Config.Settings :=
  {| Config.llm_provider := lit "openai";
     Config.llm_api_key := lit "test_llm_key";
     Config.llm_model := lit "gpt-4o";
     Config.llm_base_url := lit "https://api.openai.com/v1";
     Config.brave_api_key := lit "test_brave_key";
     Config.brave_search_url := lit "https://api.search.brave.com/res/v1/web/search";
     Config.app_env := lit "development";
     Config.log_level := lit "INFO";
     Config.debug := false |}.

(** A client that answers with two results and closes without error, and
    one whose [aclose()] raises (as in
    [test_close_with_already_closed_session]). *)
Definition good_client : client := Client (sess_of resp_two_results) (Ret tt).
Definition failing_close_client : client :=
  Client (sess_of resp_two_results)
         (Raise (Exn OrdinaryException (lit "Already closed"))).

(** A model run that answers at once. *)
Definition quick_run : str -> Dependencies.BraveSearchDependencies -> io str :=
  fun _ _ => ([], Ret (lit "Summary")).

(** A text holding every pattern [validate_agent_pattern] looks for. *)
Definition agent_source : str :=
  Validate.join nl
    (lit <$> ["from pydantic_ai import Agent, RunContext";
              "research_agent = Agent("; "SYSTEM_PROMPT ="; "@research_agent.tool";
              "async def search_web(ctx: RunContext[BraveSearchDependencies]) -> str:";
              "try:"; "max_results = min(max(max_results, 1), 20)";
              "ctx.deps.brave_api_key"; "except Exception as e:"]%string).

(** A directory holding only that [agent.py]. *)
Definition fs_agent_only : Validate.filesystem :=
  Validate.fs_of {[ lit "agent.py" := agent_source ]}.

(** [httpx.ReadTimeout(msg)], what the client built by [create] (an
    [httpx.AsyncClient] with [timeout=30.0]) raises when the server does
    not answer in time.  The timeouts of httpx derive from
    [httpx.TimeoutException], an [Exception] that is not an
    [asyncio.TimeoutError]. *)
Definition httpx_ReadTimeout (msg : str) : exn := Exn OrdinaryException msg.

(** A search tool that sends the count it is given as it is, and answers
    with that count: what a mock in the place of [brave_search_tool]
    records of its call. *)
Definition recording_tool : str -> session -> str -> Z -> io str :=
  fun api_key sess query max_results =>
    _ ← session_get sess (Request Tools.SEARCH_URL api_key (lit "application/json")
                                  query max_results (lit "en"));
    mret (of_Z max_results).

(** The message of one validation error, as pydantic words it. *)
Definition error_message (k : Config.error_kind) : str :=
  match k with
  | Config.Missing => lit "Field required"
  | Config.ValidatorError msg => lit "Value error, " ++ msg
  | Config.BoolParsing =>
      lit "Input should be a valid boolean, unable to interpret input"
  end.

(** A rendering of a validation error in the layout of pydantic's text:
    the number of errors and the model, then for each error the name of
    the field and, indented, its message (the library's text goes on with
    the input and a link after each message). *)
Definition error_listing : Config.environ -> list Config.field_error -> str :=
  fun _ errs =>
    of_Z (Z.of_nat (length errs))
    ++ (if bool_decide (length errs = 1%nat)
        then lit " validation error for Settings"
        else lit " validation errors for Settings")
    ++ mjoin ((fun '(name, k) => nl ++ name ++ nl ++ lit "  " ++ error_message k)
              <$> errs).

(** [str.lower] on the ASCII letters. *)
Definition ascii_lowercase : str -> str := fmap Config.ascii_lower.

(** Dependencies holding the test key and the client of two results. *)
Definition good_deps : Dependencies.BraveSearchDependencies :=
  {| Dependencies.brave_api_key := key;
     Dependencies.session := good_client;
     Dependencies.session_id := None |}.

End Scenarios.

(** * Properties *)

Import Spec.

(** Literals stay folded while the proofs below simplify. *)
#[local] Opaque lit of_Z nl.

(** Unfold the sequencing of [io] and [outcome] and simplify. *)
Ltac io_simpl :=
  unfold mbind, io_bind, mret, io_ret, outcome_bind, outcome_ret, lift, log,
    emit, session_get, trace, result in *;
  simpl in *.

(** ** Blank strings *)

Section Blank.

Lemma lstrip_blank (s : str) : blank s -> lstrip s = [].
Proof.
  induction 1 as [|c s Hc _ IH]; simpl; [done|]. by rewrite Hc.
Qed.

(** What [lstrip] leaves starts with a character that is not whitespace. *)
Lemma lstrip_head (s : str) c r : lstrip s = c :: r -> is_space c = false.
Proof.
  induction s as [|a s IH]; simpl; [done|].
  destruct (is_space a) eqn:Ha; [done|]. intros [= <- _]. done.
Qed.

Lemma lstrip_nil_blank (s : str) : lstrip s = [] -> blank s.
Proof.
  induction s as [|a s IH]; simpl; [intros _; constructor|].
  destruct (is_space a) eqn:Ha; [|done]. intros H. constructor; [exact Ha | exact (IH H)].
Qed.

Lemma strip_nil_iff (s : str) : strip s = [] <-> blank s.
Proof.
  unfold strip, rstrip. split.
  - intros H. apply lstrip_nil_blank.
    apply (f_equal (@rev N)) in H. rewrite rev_involutive in H. simpl in H.
    destruct (lstrip s) as [|c r] eqn:E; [done|].
    apply lstrip_head in E. apply lstrip_nil_blank in H.
    apply Forall_rev in H. rewrite rev_involutive in H.
    inversion H; congruence.
  - intros H. by rewrite (lstrip_blank s H).
Qed.

(** The guard [not s or not s.strip()] holds exactly for the empty and
    the whitespace-only strings. *)
Lemma guard_blank (s : str) :
  negb (truthy s) || negb (truthy (strip s)) = true <-> blank s.
Proof.
  rewrite <- strip_nil_iff. destruct s as [|c s]; simpl; [done|].
  destruct (strip (c :: s)); simpl; split; done.
Qed.

Lemma guard_not_blank (s : str) :
  negb (truthy s) || negb (truthy (strip s)) = false <-> ~ blank s.
Proof.
  rewrite <- guard_blank. destruct (negb (truthy s) || negb (truthy (strip s)));
    split; congruence.
Qed.

(** The guard [not v or v.strip() == ""] of the settings validator. *)
Lemma validator_guard_blank (s : str) :
  negb (truthy s) || is_empty (strip s) = true <-> blank s.
Proof. apply guard_blank. Qed.

#[global] Instance blank_dec (s : str) : Decision (blank s).
Proof.
  unfold blank. apply Forall_dec. intros c. apply bool_eq_dec.
Defined.

End Blank.

(** ** The shape of a run of [brave_search_tool] *)

Section ToolRuns.

Variable py_repr : json -> str.

#[local] Abbreviation tool := (Tools.brave_search_tool py_repr).
#[local] Abbreviation handle_response := (Tools.handle_response py_repr).

Lemma tool_blank_key k sess q mr :
  blank k -> tool k sess q mr = ([], Ret Tools.MSG_KEY_REQUIRED).
Proof.
  intros H. apply guard_blank in H. unfold Tools.brave_search_tool, Tools.brave_search_tool_awaiting.
  by rewrite H.
Qed.

Lemma tool_blank_query k sess q mr :
  ~ blank k -> blank q -> tool k sess q mr = ([], Ret Tools.MSG_QUERY_EMPTY).
Proof.
  intros Hk Hq. apply guard_not_blank in Hk. apply guard_blank in Hq.
  unfold Tools.brave_search_tool, Tools.brave_search_tool_awaiting. by rewrite Hk, Hq.
Qed.

(** With a key and a query, the request raised [e]: the handler decides. *)
Lemma tool_get_raises k sess q mr e :
  ~ blank k -> ~ blank q -> sess (search_request k q mr) = Raise e ->
  tool k sess q mr =
    (EvLimiterEnter :: search_log q mr :: EvGet (search_request k q mr)
       :: trace (Tools.handler e) ++ [EvLimiterExit],
     result (Tools.handler e)).
Proof.
  intros Hk Hq He. apply guard_not_blank in Hk, Hq.
  unfold Tools.brave_search_tool, Tools.brave_search_tool_awaiting. rewrite Hk, Hq.
  unfold async_with_limiter, with_rate_limiter, try_except, search_log.
  io_simpl.
  fold (search_request k q mr). rewrite He.
  by destruct (Tools.handler e).
Qed.

(** With a key and a query, the request returned [resp]: the branches on
    the response decide, under the same handler. *)
Lemma tool_get_returns k sess q mr resp :
  ~ blank k -> ~ blank q -> sess (search_request k q mr) = Ret resp ->
  tool k sess q mr =
    (EvLimiterEnter :: search_log q mr :: EvGet (search_request k q mr)
       :: trace (try_except (handle_response q resp) Tools.handler)
       ++ [EvLimiterExit],
     result (try_except (handle_response q resp) Tools.handler)).
Proof.
  intros Hk Hq He. apply guard_not_blank in Hk, Hq.
  unfold Tools.brave_search_tool, Tools.brave_search_tool_awaiting. rewrite Hk, Hq.
  unfold async_with_limiter, with_rate_limiter, try_except, search_log.
  io_simpl.
  fold (search_request k q mr). rewrite He.
  destruct (handle_response q resp) as [t [a|e]]; [done|].
  by destruct (Tools.handler e).
Qed.

Lemma handler_logs e : forallb is_log (trace (Tools.handler e)) = true.
Proof. unfold Tools.handler. by destruct (exn_class e). Qed.

Lemma handle_response_logs q resp :
  forallb is_log (trace (handle_response q resp)) = true.
Proof.
  unfold Tools.handle_response.
  repeat (case_match; io_simpl; simplify_eq; try reflexivity).
Qed.

Lemma try_except_logs q resp :
  forallb is_log (trace (try_except (handle_response q resp) Tools.handler)) = true.
Proof.
  pose proof (handle_response_logs q resp) as H. unfold try_except.
  destruct (handle_response q resp) as [t [a|e]]; [done|].
  pose proof (handler_logs e) as He.
  destruct (Tools.handler e) as [t' o]. unfold trace in *; simpl in *.
  rewrite forallb_app. by rewrite H, He.
Qed.

End ToolRuns.

(** ** Requests issued by one invocation *)

Section Requests.

Variable py_repr : json -> str.

#[local] Abbreviation tool := (Tools.brave_search_tool py_repr).

Lemma logs_no_get t : forallb is_log t = true -> List.filter is_get t = [].
Proof.
  induction t as [|ev t IH]; simpl; [done|].
  intros [Hev Ht]%andb_prop. rewrite (IH Ht). by destruct ev.
Qed.

Lemma logs_have_count c t : forallb is_log t = true -> gets_have_count c t.
Proof.
  unfold gets_have_count. induction t as [|ev t IH]; simpl; [constructor|].
  intros [Hev Ht]%andb_prop. constructor; [by destruct ev | exact (IH Ht)].
Qed.

(** The trace of any invocation: nothing at all, or one acquisition of the
    limiter, the log line, one GET, log lines, and the exit of the limiter. *)
Lemma tool_trace_shape k sess q mr :
  trace (tool k sess q mr) = []
  \/ exists logs,
      forallb is_log logs = true
      /\ trace (tool k sess q mr) =
           EvLimiterEnter :: search_log q mr :: EvGet (search_request k q mr)
             :: logs ++ [EvLimiterExit].
Proof.
  destruct (decide (blank k)) as [Hk|Hk].
  { left. by rewrite tool_blank_key. }
  destruct (decide (blank q)) as [Hq|Hq].
  { left. by rewrite tool_blank_query. }
  right. destruct (sess (search_request k q mr)) as [resp|e] eqn:E.
  - rewrite (tool_get_returns _ _ _ _ _ resp Hk Hq E).
    eexists; split; [apply try_except_logs | done].
  - rewrite (tool_get_raises _ _ _ _ _ e Hk Hq E).
    eexists; split; [apply handler_logs | done].
Qed.

Lemma tool_gets_have_count k sess q mr :
  gets_have_count (Z.min (Z.max mr 1) 20) (trace (tool k sess q mr)).
Proof.
  destruct (tool_trace_shape k sess q mr) as [-> | (logs & Hlogs & ->)].
  - constructor.
  - unfold gets_have_count. repeat constructor.
    apply Forall_app. split; [by apply logs_have_count | by repeat constructor].
Qed.

(** C6. There is no retry: whatever the arguments, the response or the
    error, one invocation of [brave_search_tool] issues at most one HTTP GET. *)
Theorem at_most_one_get k sess q mr :
  (count_gets (trace (tool k sess q mr)) <= 1)%nat.
Proof.
  unfold count_gets.
  destruct (tool_trace_shape k sess q mr) as [-> | (logs & Hlogs & ->)];
    simpl; [lia|].
  rewrite List.filter_app, (logs_no_get _ Hlogs). simpl. lia.
Qed.

(** With a key and a query the GET is issued, and exactly once. *)
Lemma exactly_one_get k sess q mr :
  ~ blank k -> ~ blank q -> count_gets (trace (tool k sess q mr)) = 1%nat.
Proof.
  intros Hk Hq. unfold count_gets.
  assert (exists logs, forallb is_log logs = true /\
            trace (tool k sess q mr) =
              EvLimiterEnter :: search_log q mr :: EvGet (search_request k q mr)
                :: logs ++ [EvLimiterExit]) as (logs & Hlogs & ->).
  { destruct (sess (search_request k q mr)) as [resp|e] eqn:E.
    - rewrite (tool_get_returns _ _ _ _ _ resp Hk Hq E).
      eexists; split; [apply try_except_logs | done].
    - rewrite (tool_get_raises _ _ _ _ _ e Hk Hq E).
      eexists; split; [apply handler_logs | done]. }
  simpl. by rewrite List.filter_app, (logs_no_get _ Hlogs).
Qed.

(** Every GET is issued after the shared limiter was acquired. *)
Lemma get_inside_limiter k sess q mr pre r post :
  trace (tool k sess q mr) = pre ++ EvGet r :: post ->
  In EvLimiterEnter pre.
Proof.
  destruct (tool_trace_shape k sess q mr) as [-> | (logs & Hlogs & ->)].
  - by destruct pre.
  - destruct pre as [|ev pre]; [done|]. intros [= <- _]. by left.
Qed.


End Requests.

(** ** Errors become strings *)

Section Errors.

Variable py_repr : json -> str.

#[local] Abbreviation tool := (Tools.brave_search_tool py_repr).
#[local] Abbreviation handle_response := (Tools.handle_response py_repr).

Lemma get_raises_ordinary v key dflt e :
  Json.get v key dflt = Raise e -> exn_class e = OrdinaryException.
Proof. destruct v; simpl; intros [= <-]; done. Qed.

Lemma iter_raises_ordinary v e :
  Json.iter v = Raise e -> exn_class e = OrdinaryException.
Proof. destruct v; simpl; intros [= <-]; done. Qed.

Lemma len_raises_ordinary v e :
  Json.len v = Raise e -> exn_class e = OrdinaryException.
Proof. destruct v; simpl; intros [= <-]; done. Qed.

Lemma format_loop_raises_ordinary results : forall i acc e,
  Tools.format_loop py_repr i results acc = Raise e ->
  exn_class e = OrdinaryException.
Proof.
  induction results as [|r rest IH]; intros i acc e; simpl; [done|].
  destruct r; simpl; try (intros [= <-]; done).
  apply IH.
Qed.

(** The loop only ever appends to the text it started from. *)
Lemma format_loop_extends results : forall i acc s,
  Tools.format_loop py_repr i results acc = Ret s ->
  exists body, s = acc ++ body.
Proof.
  induction results as [|r rest IH]; intros i acc s; simpl.
  - intros [= <-]. exists []. by rewrite app_nil_r.
  - destruct r; simpl; try done.
    intros (body & ->)%IH. eexists. by rewrite <- app_assoc.
Qed.

(** An exception leaving the branches on the response is the one
    [response.json()] raised, or an [AttributeError] or [TypeError] of the
    walk through the decoded body. *)
Lemma handle_response_raises q resp e :
  result (handle_response q resp) = Raise e ->
  json_body resp = Raise e \/ exn_class e = OrdinaryException.
Proof.
  unfold Tools.handle_response.
  repeat (case_match; io_simpl; simplify_eq; try done);
    intros ?; simplify_eq;
    eauto using get_raises_ordinary, iter_raises_ordinary, len_raises_ordinary,
      format_loop_raises_ordinary.
Qed.

(** When the request raises, the class of the exception decides: an
    [asyncio.TimeoutError] gives the timeout message, any other instance of
    [Exception] gives the generic message with its text, and an exception
    that is not an instance of [Exception] propagates. *)
Lemma request_exception_classified k sess q mr e :
  ~ blank k -> ~ blank q -> sess (search_request k q mr) = Raise e ->
  match exn_class e with
  | AsyncioTimeoutError => result (tool k sess q mr) = Ret Tools.MSG_TIMEOUT
  | OrdinaryException => result (tool k sess q mr) = Ret (Tools.msg_failed e)
  | BaseExceptionOnly => result (tool k sess q mr) = Raise e
  end.
Proof.
  intros Hk Hq He. rewrite (tool_get_raises _ _ _ _ _ e Hk Hq He).
  unfold Tools.handler. by destruct (exn_class e).
Qed.


(** Granted its slot, the call with the explicit wait is the call. *)
Lemma awaiting_granted u k sess q mr :
  Tools.brave_search_tool_awaiting py_repr (Ret u) k sess q mr = tool k sess q mr.
Proof. reflexivity. Qed.

(** A blank argument returns before the limiter is reached. *)
Lemma awaiting_blank acquire k sess q mr :
  blank k \/ blank q ->
  Tools.brave_search_tool_awaiting py_repr acquire k sess q mr = tool k sess q mr.
Proof.
  intros H. unfold Tools.brave_search_tool, Tools.brave_search_tool_awaiting.
  destruct (decide (blank k)) as [Hk|Hk].
  { apply guard_blank in Hk. by rewrite Hk. }
  destruct H as [H|Hq]; [done|].
  apply guard_not_blank in Hk. apply guard_blank in Hq. by rewrite Hk, Hq.
Qed.

(** With a key and a query, an exception that arrives during the wait
    leaves the function as it is: nothing was logged, nothing was sent. *)
Lemma awaiting_interrupted e k sess q mr :
  ~ blank k -> ~ blank q ->
  Tools.brave_search_tool_awaiting py_repr (Raise e) k sess q mr = ([], Raise e).
Proof.
  intros Hk Hq. apply guard_not_blank in Hk, Hq.
  unfold Tools.brave_search_tool_awaiting. by rewrite Hk, Hq.
Qed.


End Errors.

(** ** The branches on the response *)

Section Classification.

Variable py_repr : json -> str.

#[local] Abbreviation tool := (Tools.brave_search_tool py_repr).
#[local] Abbreviation handle_response := (Tools.handle_response py_repr).

Lemma try_except_ret {A} (m : io A) h a :
  result m = Ret a -> result (try_except m h) = Ret a.
Proof. destruct m as [t o]. unfold result; simpl. by intros ->. Qed.

Lemma try_except_raise {A} (m : io A) h e :
  result m = Raise e -> result (try_except m h) = result (h e).
Proof.
  destruct m as [t o]. unfold result; simpl. intros ->. by destruct (h e).
Qed.

Lemma handler_ordinary e :
  exn_class e = OrdinaryException ->
  result (Tools.handler e) = Ret (Tools.msg_failed e).
Proof. unfold Tools.handler. by intros ->. Qed.



(** On status 200 the branches are those of the walk through the body. *)
Lemma handle_response_200 q resp :
  status_code resp = 200 ->
  handle_response q resp =
    (data ← lift (json_body resp);
     web ← lift (Json.get data (lit "web") (JObj ∅));
     web_results ← lift (Json.get web (lit "results") (JArr []));
     if negb (Json.truthy web_results) then
       mret (Tools.msg_no_results q)
     else
       items ← lift (Json.iter web_results);
       result_text ← lift (Tools.format_loop py_repr 1 items (Tools.header q));
       n ← lift (Json.len web_results);
       log INFO (lit "Found " ++ of_Z n ++ lit " results for query: " ++ q);;
       mret result_text).
Proof. intros H. unfold Tools.handle_response. by rewrite H. Qed.

Lemma walk_result q resp data :
  status_code resp = 200 -> json_body resp = Ret data ->
  result (handle_response q resp) = Ret (Tools.msg_no_results q)
  \/ (exists body, result (handle_response q resp) = Ret (Tools.header q ++ body))
  \/ (exists e, exn_class e = OrdinaryException
                /\ result (handle_response q resp) = Raise e).
Proof.
  intros Hst Hdata. rewrite (handle_response_200 _ _ Hst), Hdata.
  unfold Tools.msg_no_results. io_simpl.
  destruct (Json.get data (lit "web") (JObj ∅)) as [web|e] eqn:Eweb; simpl.
  2: { right; right. exists e. eauto using get_raises_ordinary. }
  destruct (Json.get web (lit "results") (JArr [])) as [wr|e] eqn:Ewr; simpl.
  2: { right; right. exists e. eauto using get_raises_ordinary. }
  destruct (Json.truthy wr); simpl; [|by left].
  destruct (Json.iter wr) as [items|e] eqn:Eit; simpl.
  2: { right; right. exists e. eauto using iter_raises_ordinary. }
  destruct (Tools.format_loop py_repr 1 items (Tools.header q))
    as [s|e] eqn:Eloop; simpl.
  2: { right; right. exists e. eauto using format_loop_raises_ordinary. }
  destruct (Json.len wr) as [n|e] eqn:Elen; simpl.
  2: { right; right. exists e. eauto using len_raises_ordinary. }
  right; left. apply format_loop_extends in Eloop as (body & ->). by exists body.
Qed.


End Classification.

(** ** The report *)

Section ReportFacts.

Variable py_repr : json -> str.

#[local] Abbreviation tool := (Tools.brave_search_tool py_repr).
#[local] Abbreviation handle_response := (Tools.handle_response py_repr).

Lemma field_default (o : gmap str json) (name placeholder : string) :
  Tools.format_value py_repr (default (JStr (lit placeholder)) (o !! lit name))
  = field py_repr o name placeholder.
Proof. unfold field. by destruct (o !! lit name). Qed.

(** The three lines the loop appends are the entry of the result. *)
Lemma format_entry_entry (i : Z) (o : gmap str json) :
  Tools.format_entry py_repr i
    (default (JStr (lit "No title")) (o !! lit "title"))
    (default (JStr (lit "No URL")) (o !! lit "url"))
    (default (JStr (lit "No description")) (o !! lit "description"))
  = entry py_repr i o.
Proof.
  unfold Tools.format_entry, entry. rewrite !field_default.
  by rewrite <- !app_assoc.
Qed.

(** The loop over a list of objects never fails and appends their entries
    in order, numbered from [i]. *)
Lemma format_loop_objects (objs : list (gmap str json)) : forall i acc,
  Tools.format_loop py_repr i (JObj <$> objs) acc
  = Ret (acc ++ mjoin (imap (fun j o => entry py_repr (Z.of_nat j + i) o) objs)).
Proof.
  induction objs as [|o objs IH]; intros i acc; simpl.
  - by rewrite app_nil_r.
  - unfold mbind, outcome_bind; simpl. rewrite format_entry_entry, IH.
    rewrite <- app_assoc. do 4 f_equal.
    apply imap_ext. intros j x _. unfold compose. f_equal. lia.
Qed.

(** The printed fields of a result occur in its entry. *)
Lemma entry_holds_fields (i : Z) (o : gmap str json) :
  occurs_in (of_Z i) (entry py_repr i o)
  /\ occurs_in (field py_repr o "title" "No title") (entry py_repr i o)
  /\ occurs_in (field py_repr o "url" "No URL") (entry py_repr i o)
  /\ occurs_in (field py_repr o "description" "No description") (entry py_repr i o).
Proof.
  unfold entry. repeat split.
  - by exists [], (lit ". **" ++ field py_repr o "title" "No title" ++ lit "**" ++ nl
      ++ lit "   URL: " ++ field py_repr o "url" "No URL" ++ nl
      ++ lit "   " ++ field py_repr o "description" "No description" ++ nl ++ nl).
  - exists (of_Z i ++ lit ". **"), (lit "**" ++ nl
      ++ lit "   URL: " ++ field py_repr o "url" "No URL" ++ nl
      ++ lit "   " ++ field py_repr o "description" "No description" ++ nl ++ nl).
    by rewrite <- !app_assoc.
  - exists (of_Z i ++ lit ". **" ++ field py_repr o "title" "No title" ++ lit "**"
      ++ nl ++ lit "   URL: "),
      (nl ++ lit "   " ++ field py_repr o "description" "No description" ++ nl ++ nl).
    by rewrite <- !app_assoc.
  - exists (of_Z i ++ lit ". **" ++ field py_repr o "title" "No title" ++ lit "**"
      ++ nl ++ lit "   URL: " ++ field py_repr o "url" "No URL" ++ nl ++ lit "   "),
      (nl ++ nl).
    by rewrite <- !app_assoc.
Qed.

Lemma walk_report q resp data objs :
  status_code resp = 200 -> json_body resp = Ret data ->
  web_results data objs -> objs <> [] ->
  result (handle_response q resp) = Ret (report py_repr q objs).
Proof.
  intros Hst Hdata (d & w & -> & Hweb & Hres) Hne.
  rewrite (handle_response_200 _ _ _ Hst), Hdata.
  io_simpl. rewrite Hweb; simpl. rewrite Hres; simpl.
  destruct objs as [|o objs]; [done|].
  change (JObj o :: (JObj <$> objs)) with (JObj <$> (o :: objs)).
  rewrite format_loop_objects. simpl. unfold report. do 3 f_equal.
Qed.

Lemma walk_no_results q resp data :
  status_code resp = 200 -> json_body resp = Ret data ->
  web_results data [] \/ web_results_absent data ->
  result (handle_response q resp) = Ret (Tools.msg_no_results q).
Proof.
  intros Hst Hdata H.
  rewrite (handle_response_200 _ _ _ Hst), Hdata.
  destruct H as [(d & w & -> & Hweb & Hres)
                | (d & -> & [Hweb | (w & Hweb & Hres)])];
    io_simpl; rewrite Hweb; simpl; rewrite ?lookup_empty, ?Hres; done.
Qed.

(** What the loop prints of a value is what a reader is shown. *)
Lemma format_value_shown (v : json) : Tools.format_value py_repr v = shown py_repr v.
Proof. by destruct v as [| [] | | | | |]. Qed.

Lemma field_shown (o : gmap str json) (name placeholder : string) :
  field py_repr o name placeholder = shown_field py_repr o name placeholder.
Proof.
  unfold field, shown_field. destruct (o !! lit name); simpl; [|done].
  apply format_value_shown.
Qed.

(** The text the loop builds is the header line naming the query, an empty
    line, and the numbered entries. *)
Lemma report_text (q : str) (objs : list (gmap str json)) :
  report py_repr q objs
  = lit "Search Results for '" ++ q ++ lit "':" ++ nl ++ nl
    ++ numbered_entries py_repr objs.
Proof.
  unfold report, Tools.header, numbered_entries. rewrite <- !app_assoc.
  do 5 f_equal.
Qed.

(** C5. On a 200 response whose body has the shape [data.web.results]:
    a non-empty list of results gives the line [Search Results for
    'query':], an empty line, and one numbered entry per result in the
    order of the list, each with the title, URL and description of the
    result or their placeholders; an empty or absent list gives the
    no-results message naming the query. *)
Theorem results_report k sess q mr resp data :
  ~ blank k -> ~ blank q -> sess (search_request k q mr) = Ret resp ->
  status_code resp = 200 -> json_body resp = Ret data ->
  (forall objs, web_results data objs -> objs <> [] ->
     result (Tools.brave_search_tool py_repr k sess q mr)
     = Ret (lit "Search Results for '" ++ q ++ lit "':" ++ nl ++ nl
            ++ numbered_entries py_repr objs))
  /\ (web_results data [] \/ web_results_absent data ->
      result (Tools.brave_search_tool py_repr k sess q mr)
      = Ret (lit "No search results found for query: " ++ q)).
Proof.
  intros Hk Hq Hresp Hst Hdata.
  rewrite (tool_get_returns _ _ _ _ _ resp Hk Hq Hresp).
  change (result (?t, ?o)) with o. split.
  - intros objs Hobjs Hne. rewrite <- report_text.
    apply try_except_ret. by apply walk_report with data.
  - intros H. apply try_except_ret. by apply walk_no_results with data.
Qed.

End ReportFacts.

(** ** The settings loader *)

Section Loader.

Variable validation_error_str : Config.environ -> list Config.field_error -> str.
Variable py_lower : str -> str.

#[local] Abbreviation load_settings :=
  (Config.load_settings validation_error_str py_lower).

Lemma api_key_field_spec (env : Config.environ) (name : string) :
  match Config.api_key_field env name with
  | inr v => env !! lit name = Some v /\ ~ blank v
  | inl _ => missing_or_blank env name
  end.
Proof.
  unfold Config.api_key_field, Config.validate_api_keys, missing_or_blank.
  destruct (env !! lit name) as [v|] eqn:E; [|by left].
  destruct (negb (truthy v) || is_empty (strip v)) eqn:G.
  - right. exists v. split; [done|]. by apply validator_guard_blank.
  - split; [done|]. intros Hb%validator_guard_blank. congruence.
Qed.

Lemma not_both (env : Config.environ) (name : string) :
  present_non_blank env name -> missing_or_blank env name -> False.
Proof.
  intros (v & Hv & Hnb) [Hnone | (v' & Hv' & Hb)]; [congruence|].
  rewrite Hv in Hv'. by injection Hv' as ->.
Qed.

Lemma bool_field_spec (env : Config.environ) :
  match Config.bool_field env "debug" false with
  | inr _ => debug_parses env
  | inl _ => ~ debug_parses env
  end.
Proof.
  unfold Config.bool_field, debug_parses.
  destruct (env !! lit "debug") as [v|]; [|done].
  destruct (Config.parse_bool v) as [b|]; [by eexists|].
  by intros [? ?].
Qed.

(** [load_settings] returns when the three validated fields are accepted,
    and raises otherwise. *)
Lemma load_settings_cases (env : Config.environ) :
  match Config.api_key_field env "llm_api_key",
        Config.api_key_field env "brave_api_key",
        Config.bool_field env "debug" false with
  | inr llm_key, inr brave_key, inr _ =>
      exists s, load_settings env = Ret s
                /\ Config.llm_api_key s = llm_key
                /\ Config.brave_api_key s = brave_key
  | _, _, _ => raises (load_settings env)
  end.
Proof.
  unfold Config.load_settings, Config.Settings_init, raises.
  destruct (Config.api_key_field env "llm_api_key"),
           (Config.api_key_field env "brave_api_key"),
           (Config.bool_field env "debug" false); simpl; eauto.
Qed.

Lemma load_settings_returns_iff (env : Config.environ) :
  returns (load_settings env) <-> settings_valid env.
Proof.
  pose proof (load_settings_cases env) as Hc.
  pose proof (api_key_field_spec env "llm_api_key") as H1.
  pose proof (api_key_field_spec env "brave_api_key") as H2.
  pose proof (bool_field_spec env) as H3.
  unfold settings_valid, present_non_blank.
  destruct (Config.api_key_field env "llm_api_key") as [e1|k1].
  { split.
    - intros [s Hs]. destruct Hc as [e He]. congruence.
    - intros (Ha & _). destruct (not_both _ _ Ha H1). }
  destruct (Config.api_key_field env "brave_api_key") as [e2|k2].
  { split.
    - intros [s Hs]. destruct Hc as [e He]. congruence.
    - intros (_ & Hb & _). destruct (not_both _ _ Hb H2). }
  destruct (Config.bool_field env "debug" false) as [e3|b].
  { split.
    - intros [s Hs]. destruct Hc as [e He]. congruence.
    - intros (_ & _ & Hd). done. }
  split.
  - intros _. eauto.
  - intros _. destruct Hc as (s & Hs & _). by exists s.
Qed.

Lemma raises_iff_not_returns {A} (o : outcome A) : raises o <-> ~ returns o.
Proof.
  unfold raises, returns. destruct o as [a|e]; split.
  - intros [e He]. done.
  - intros H. destruct H. by exists a.
  - intros _ [a Ha]. done.
  - intros _. by exists e.
Qed.

(** C7 (amended). The loader returns a [Settings] object exactly when
    validation succeeds: both required keys are set and neither empty nor
    whitespace-only, and [DEBUG], when set, is a boolean literal.  It
    raises otherwise, in particular whenever a required key is missing,
    empty or whitespace-only. *)
Theorem load_settings_validates (env : Config.environ) :
  (settings_valid env <-> returns (load_settings env))
  /\ (~ settings_valid env <-> raises (load_settings env))
  /\ (missing_or_blank env "llm_api_key" \/ missing_or_blank env "brave_api_key"
      -> raises (load_settings env)).
Proof.
  pose proof (load_settings_returns_iff env) as Hiff.
  split; [|split].
  - by symmetry.
  - rewrite raises_iff_not_returns. by rewrite Hiff.
  - intros H. apply raises_iff_not_returns. rewrite Hiff.
    intros (Ha & Hb & _). destruct H; eauto using not_both.
Qed.

End Loader.

(** ** The agent *)

Section AgentFacts.

Import Dependencies.

Variable py_repr : json -> str.
Variable validation_error_str : Config.environ -> list Config.field_error -> str.
Variable py_lower : str -> str.
Variable agent_run : str -> BraveSearchDependencies -> io str.
Variable agent_run_sync : str -> BraveSearchDependencies -> io str.

#[local] Abbreviation tool := (Tools.brave_search_tool py_repr).
#[local] Abbreviation search_web := (Agent.search_web py_repr).
#[local] Abbreviation load_settings :=
  (Config.load_settings validation_error_str py_lower).
#[local] Abbreviation run_research :=
  (Agent.run_research validation_error_str py_lower agent_run).
#[local] Abbreviation run_research_sync :=
  (Agent.run_research_sync validation_error_str py_lower agent_run_sync).

Lemma clamp_idempotent (mr : Z) :
  Z.min (Z.max (Z.min (Z.max mr 1) 20) 1) 20 = Z.min (Z.max mr 1) 20.
Proof. lia. Qed.

(** [search_web] logs one line, runs the tool on the clamped count, and
    at most logs again. *)
Lemma search_web_trace deps q mr :
  exists logs,
    forallb is_log logs = true
    /\ trace (search_web deps q mr) =
         EvLog INFO (lit "Agent executing search for: " ++ q)
           :: trace (tool (brave_api_key deps) (client_get (session deps)) q
                          (Z.min (Z.max mr 1) 20))
           ++ logs.
Proof.
  unfold Agent.search_web, Agent.search_web_calling, try_except. io_simpl.
  destruct (tool _ _ _ _) as [t [a|e]]; simpl.
  - exists []. by rewrite !app_nil_r.
  - destruct (exn_class e); simpl; eexists; split; try reflexivity;
      by rewrite ?app_nil_r.
Qed.

(** Whatever function [search_web] finds under the name
    [brave_search_tool], it logs its line and runs that function once, on
    the key and the client of the dependencies, the query, and the count
    [min(max(max_results, 1), 20)]; the outcome is that of the function,
    an [Exception] turned into the [Web search failed] text. *)
Lemma search_web_calling_run callee deps q mr :
  let run := callee (brave_api_key deps) (client_get (session deps)) q
                    (Z.min (Z.max mr 1) 20) in
  let line := EvLog INFO (lit "Agent executing search for: " ++ q) in
  match result run with
  | Ret s => Agent.search_web_calling callee deps q mr = (line :: trace run, Ret s)
  | Raise e =>
      match exn_class e with
      | BaseExceptionOnly =>
          Agent.search_web_calling callee deps q mr = (line :: trace run, Raise e)
      | _ =>
          Agent.search_web_calling callee deps q mr =
            (line :: trace run ++ [EvLog ERROR (lit "Web search failed: " ++ exn_str e)],
             Ret (lit "Web search failed: " ++ exn_str e))
      end
  end.
Proof.
  unfold Agent.search_web_calling, try_except. io_simpl.
  destruct (callee _ _ _ _) as [t [a|e]]; simpl.
  - by rewrite app_nil_r.
  - destruct (exn_class e); simpl; by rewrite ?app_nil_r.
Qed.

(** C9. The count sent to the search API is [min(max(max_results, 1), 20)],
    a number from 1 to 20, in every GET issued by [brave_search_tool] and
    by the [search_web] tool of the agent, and with a key and a query that
    GET is issued.  The clamp is applied twice: [search_web] is
    [search_web_calling] at the tool, and [search_web_calling] hands the
    clamped count to whatever function it calls, once. *)
Theorem count_is_clamped deps k sess q mr :
  1 <= Z.min (Z.max mr 1) 20 <= 20
  /\ gets_have_count (Z.min (Z.max mr 1) 20) (trace (tool k sess q mr))
  /\ gets_have_count (Z.min (Z.max mr 1) 20) (trace (search_web deps q mr))
  /\ (~ blank k -> ~ blank q ->
      In (EvGet (search_request k q mr)) (trace (tool k sess q mr))
      /\ param_count (search_request k q mr) = Z.min (Z.max mr 1) 20)
  /\ Agent.search_web py_repr deps q mr
     = Agent.search_web_calling (Tools.brave_search_tool py_repr) deps q mr
  /\ (forall callee,
       let run := callee (brave_api_key deps) (client_get (session deps)) q
                         (Z.min (Z.max mr 1) 20) in
       let line := EvLog INFO (lit "Agent executing search for: " ++ q) in
       match result run with
       | Ret s =>
           Agent.search_web_calling callee deps q mr = (line :: trace run, Ret s)
       | Raise e =>
           match exn_class e with
           | BaseExceptionOnly =>
               Agent.search_web_calling callee deps q mr
               = (line :: trace run, Raise e)
           | _ =>
               Agent.search_web_calling callee deps q mr
               = (line :: trace run
                    ++ [EvLog ERROR (lit "Web search failed: " ++ exn_str e)],
                  Ret (lit "Web search failed: " ++ exn_str e))
           end
       end).
Proof.
  split; [lia|]. split; [apply tool_gets_have_count|]. split; [|split; [|split]].
  - destruct (search_web_trace deps q mr) as (logs & Hlogs & ->).
    unfold gets_have_count. constructor; [done|]. apply Forall_app. split.
    + pose proof (tool_gets_have_count py_repr (brave_api_key deps)
                    (client_get (Dependencies.session deps)) q
                    (Z.min (Z.max mr 1) 20)) as H.
      by rewrite clamp_idempotent in H.
    + by apply logs_have_count.
  - intros Hk Hq. split; [|done].
    destruct (sess (search_request k q mr)) as [resp|e] eqn:E.
    + rewrite (tool_get_returns _ _ _ _ _ resp Hk Hq E). simpl. auto.
    + rewrite (tool_get_raises _ _ _ _ _ e Hk Hq E). simpl. auto.
  - reflexivity.
  - intros callee. apply search_web_calling_run.
Qed.

(** C8. Both entry points build the dependencies, run the model loop and
    close the HTTP client: once [create] has made the client, the trace is
    the creation, the run, and last the [aclose()] of that client, whether
    the run returned or raised.  When the settings do not load, no client
    is made and the error propagates. *)
Theorem client_closed_on_exit env new_client query sid mr :
  match load_settings env with
  | Ret settings =>
      let deps := {| brave_api_key := Config.brave_api_key settings;
                     session := new_client;
                     session_id := sid |} in
      trace (run_research env new_client query sid mr) =
        EvClientCreate :: EvAgentRun query
          :: trace (agent_run query deps) ++ [EvClientClose]
      /\ trace (run_research_sync env new_client query sid mr) =
           EvClientCreate :: EvAgentRun query
             :: trace (agent_run_sync query deps) ++ [EvClientClose]
  | Raise e =>
      run_research env new_client query sid mr = ([], Raise e)
      /\ run_research_sync env new_client query sid mr = ([], Raise e)
  end.
Proof.
  unfold Agent.run_research, Agent.run_research_sync, create, close, try_finally.
  destruct (load_settings env) as [settings|e]; [|done].
  io_simpl. split.
  - destruct (agent_run _ _) as [t o]; simpl.
    by destruct (client_aclose new_client).
  - destruct (agent_run_sync _ _) as [t o]; simpl.
    by destruct (client_aclose new_client).
Qed.

(** The outcome of the entry point: that of the run, unless closing
    the client raises. *)
Lemma run_research_result env new_client query sid mr settings :
  load_settings env = Ret settings ->
  result (run_research env new_client query sid mr) =
    match client_aclose new_client with
    | Ret _ =>
        result (agent_run query
                  {| brave_api_key := Config.brave_api_key settings;
                     session := new_client;
                     session_id := sid |})
    | Raise e => Raise e
    end.
Proof.
  intros Hs.
  unfold Agent.run_research, create, close, try_finally. rewrite Hs.
  io_simpl. destruct (agent_run _ _) as [t o]; simpl.
  by destruct (client_aclose new_client).
Qed.

End AgentFacts.

(** ** Substrings, decided *)

Section Contains.




End Contains.

(** ** Concrete runs *)

Section Runs.

Import Examples Scenarios.

#[local] Abbreviation tool := (Tools.brave_search_tool no_repr).

Ltac decide_blank := apply (bool_decide_eq_false_1 _); vm_compute; reflexivity.

Lemma key_not_blank : ~ blank key.
Proof. decide_blank. Qed.

Lemma query_not_blank : ~ blank query.
Proof. decide_blank. Qed.


(** [test_successful_search]: the report, and the request that was sent. *)
Example successful_search :
  tool key (sess_of resp_two_results) query 5 =
    ([EvLimiterEnter; search_log query 5; EvGet (search_request key query 5);
      EvLog INFO (lit "Found 2 results for query: test query");
      EvLimiterExit],
     Ret (lit "Search Results for 'test query':" ++ nl ++ nl
          ++ lit "1. **Test Result 1**" ++ nl
          ++ lit "   URL: https://example.com/1" ++ nl
          ++ lit "   First test result" ++ nl ++ nl
          ++ lit "2. **Test Result 2**" ++ nl
          ++ lit "   URL: https://example.com/2" ++ nl
          ++ lit "   Second test result" ++ nl ++ nl)).
Proof. vm_compute. reflexivity. Qed.

(** [test_max_results_bounds]: 25 is sent as 20, and 0 as 1. *)
Example max_results_bounds :
  param_count (search_request key query 25) = 20
  /\ param_count (search_request key query 0) = 1.
Proof. split; reflexivity. Qed.

(** [test_timeout_error] and [test_general_exception]. *)
Example timeout_and_general_exception :
  result (tool key (sess_raising timeout_error) query 10)
    = Ret (lit "Error: Search request timed out")
  /\ result (tool key (sess_raising (Exn OrdinaryException (lit "Connection error")))
                 query 10)
     = Ret (lit "Error: Search failed: Connection error").
Proof. split; vm_compute; reflexivity. Qed.

(** [test_rate_limit_error], [test_auth_error] and [test_no_results]. *)
Example fixed_messages :
  result (tool key (sess_of (Response 429 (lit "Rate limit exceeded") (Raise JSONDecodeError)))
               query 10)
    = Ret (lit "Error: Rate limit exceeded. Please try again in a moment.")
  /\ result (tool key (sess_of (Response 401 (lit "Unauthorized") (Raise JSONDecodeError)))
                 query 10)
     = Ret (lit "Error: Invalid Brave API key. Please check your configuration.")
  /\ result (tool key (sess_of (Response 200 [] (Ret (body_of (JArr [])))))
                 (lit "obscure query") 10)
     = Ret (lit "No search results found for query: obscure query").
Proof. repeat split; vm_compute; reflexivity. Qed.

(** Whitespace as [str.strip] sees it: the ASCII blanks and separators, the
    no-break space; not the zero-width space. *)
Example whitespace_characters :
  is_space 32%N = true /\ is_space 9%N = true /\ is_space 13%N = true
  /\ is_space 31%N = true /\ is_space 160%N = true /\ is_space 12288%N = true
  /\ is_space 8203%N = false /\ is_space 95%N = false
  /\ strip (lit "  a b  ") = lit "a b".
Proof. repeat split; vm_compute; reflexivity. Qed.

(** A result that is [null] instead of an object: the walk raises, and the
    handler turns the [AttributeError] into the failure message. *)
Example null_result :
  result (tool key (sess_of resp_null_result) query 10)
    = Ret (lit "Error: Search failed: 'NoneType' object has no attribute 'get'").
Proof. vm_compute. reflexivity. Qed.



(** The exception of [test_timeout_error], by the classification of what
    the request raises. *)
Example timeout_error_run :
  result (tool key (sess_raising timeout_error) query 10) = Ret Tools.MSG_TIMEOUT.
Proof.
  exact (request_exception_classified no_repr key (sess_raising timeout_error)
           query 10 timeout_error key_not_blank query_not_blank eq_refl).
Qed.

(** A request that is cancelled: [asyncio.CancelledError] is no
    [Exception], no clause catches it, and no string is returned. *)
Example cancelled_request_propagates :
  result (tool key (sess_raising cancelled_error) query 10) = Raise cancelled_error
  /\ ~ timeout_distinction_claimed cancelled_error
        (result (tool key (sess_raising cancelled_error) query 10)).
Proof.
  split; [vm_compute; reflexivity|].
  intros (_ & H). vm_compute in H. specialize (H ltac:(discriminate)).
  discriminate.
Qed.

(** C3. A timeout of the HTTP client is not given the timeout message: the
    client raises [httpx.ReadTimeout], which the clause for
    [asyncio.TimeoutError] does not match, and the function returns the
    generic failure message with the text of the exception. *)
Theorem httpx_timeout_gets_generic_message (msg : str) :
  result (Tools.brave_search_tool no_repr key
            (sess_raising (httpx_ReadTimeout msg)) query 10)
  = Ret (lit "Error: Search failed: " ++ msg)
  /\ result (Tools.brave_search_tool no_repr key
               (sess_raising (httpx_ReadTimeout msg)) query 10)
     <> Ret (lit "Error: Search request timed out").
Proof.
  assert (result (tool key (sess_raising (httpx_ReadTimeout msg)) query 10)
          = Ret (lit "Error: Search failed: " ++ msg)) as ->.
  { exact (request_exception_classified no_repr key
             (sess_raising (httpx_ReadTimeout msg)) query 10
             (httpx_ReadTimeout msg) key_not_blank query_not_blank eq_refl). }
  split; [reflexivity|]. intros H. vm_compute in H. discriminate.
Qed.





(** A [KeyboardInterrupt] during the request propagates as well. *)
Example keyboard_interrupt_propagates :
  result (tool key (sess_raising keyboard_interrupt) query 10)
    = Raise keyboard_interrupt.
Proof. vm_compute. reflexivity. Qed.

(** [test_search_tool_parameter_validation]: with a mock in the place of
    the tool, [search_web] hands it 20 for 25 and 1 for 0. *)
Example search_web_clamps_for_any_tool :
  Agent.search_web_calling recording_tool good_deps query 25
  = ([EvLog INFO (lit "Agent executing search for: test query");
      EvGet (Request Tools.SEARCH_URL key (lit "application/json") query 20
                     (lit "en"))],
     Ret (lit "20"))
  /\ Agent.search_web_calling recording_tool good_deps query 0
     = ([EvLog INFO (lit "Agent executing search for: test query");
         EvGet (Request Tools.SEARCH_URL key (lit "application/json") query 1
                        (lit "en"))],
        Ret (lit "1")).
Proof. split; vm_compute; reflexivity. Qed.

Lemma two_results_shape :
  web_results (body_of (JArr [JObj result_1; JObj result_2])) [result_1; result_2].
Proof.
  eexists _, _. split; [reflexivity|]. split; vm_compute; reflexivity.
Qed.

(** C5 at the response of [test_successful_search]: the text of the
    report. *)
Lemma results_report_witness :
  (~ blank key /\ ~ blank query
   /\ sess_of resp_two_results (search_request key query 5) = Ret resp_two_results
   /\ status_code resp_two_results = 200
   /\ json_body resp_two_results
      = Ret (body_of (JArr [JObj result_1; JObj result_2])))
  /\ result (tool key (sess_of resp_two_results) query 5)
     = Ret (lit "Search Results for 'test query':" ++ nl ++ nl
            ++ lit "1. **Test Result 1**" ++ nl
            ++ lit "   URL: https://example.com/1" ++ nl
            ++ lit "   First test result" ++ nl ++ nl
            ++ lit "2. **Test Result 2**" ++ nl
            ++ lit "   URL: https://example.com/2" ++ nl
            ++ lit "   Second test result" ++ nl ++ nl).
Proof.
  split; [repeat split; [exact key_not_blank | exact query_not_blank]|].
  refine (eq_trans
    (proj1 (results_report no_repr key (sess_of resp_two_results) query 5
              resp_two_results _ key_not_blank query_not_blank eq_refl eq_refl
              eq_refl)
           [result_1; result_2] two_results_shape _) _).
  - discriminate.
  - vm_compute. reflexivity.
Defined.


(** C7 as the specification words it fails twice: with both keys set and
    [DEBUG=maybe], and with both keys set and one of them three spaces,
    the loader raises. *)
Lemma loader_counterexample :
  (raises (Config.load_settings no_error_text no_lower env_bad_debug)
   /\ ~ loader_claimed env_bad_debug
         (Config.load_settings no_error_text no_lower env_bad_debug))
  /\ (raises (Config.load_settings no_error_text no_lower env_blank_key)
     /\ ~ loader_claimed env_blank_key
           (Config.load_settings no_error_text no_lower env_blank_key)).
Proof.
  split; split.
  - eexists. vm_compute. reflexivity.
  - intros (H & _). destruct H as [s Hs]; [|vm_compute in Hs; discriminate].
    split; eexists; (split; [vm_compute; reflexivity | discriminate]).
  - eexists. vm_compute. reflexivity.
  - intros (H & _). destruct H as [s Hs]; [|vm_compute in Hs; discriminate].
    split; eexists; (split; [vm_compute; reflexivity | discriminate]).
Qed.

(** [test_load_settings_success]: the keys of the environment are those of
    the settings. *)
Example load_settings_success :
  exists s, Config.load_settings no_error_text no_lower env_good = Ret s
            /\ Config.llm_api_key s = lit "test_llm_key"
            /\ Config.brave_api_key s = lit "test_brave_key"
            /\ Config.llm_model s = lit "gpt-4o"
            /\ Config.debug s = false.
Proof. eexists. vm_compute. repeat split. Qed.

End Runs.

(** * Further properties of the search tool *)

Section ToolBehaviour.

Variable py_repr : json -> str.

#[local] Abbreviation tool := (Tools.brave_search_tool py_repr).
#[local] Abbreviation handle_response := (Tools.handle_response py_repr).

(** X1. With a key and a query that are not blank, an invocation acquires
    the limiter, logs its line, sends one GET to the search URL carrying
    the key and the query exactly as given (not stripped), the clamped
    count and the language [en], then only logs, and leaves the limiter. *)
Theorem request_sent k sess q mr :
  ~ blank k -> ~ blank q ->
  exists logs,
    forallb is_log logs = true
    /\ trace (tool k sess q mr) =
         EvLimiterEnter
           :: EvLog INFO (lit "Searching Brave for: " ++ q ++ lit " (max_results: "
                          ++ of_Z (Z.min (Z.max mr 1) 20) ++ lit ")")
           :: EvGet (Request Tools.SEARCH_URL k (lit "application/json") q
                             (Z.min (Z.max mr 1) 20) (lit "en"))
           :: logs ++ [EvLimiterExit].
Proof.
  intros Hk Hq. fold (search_log q mr). fold (search_request k q mr).
  destruct (sess (search_request k q mr)) as [resp|e] eqn:E.
  - rewrite (tool_get_returns _ _ _ _ _ resp Hk Hq E).
    eexists; split; [apply try_except_logs | done].
  - rewrite (tool_get_raises _ _ _ _ _ e Hk Hq E).
    eexists; split; [apply handler_logs | done].
Qed.

(** What leaves the [try] block as an exception is no [Exception], and is
    the very exception the request or [response.json()] raised. *)
Lemma tool_raise_inv k sess q mr e :
  result (tool k sess q mr) = Raise e ->
  exn_class e = BaseExceptionOnly
  /\ (sess (search_request k q mr) = Raise e
      \/ exists resp, sess (search_request k q mr) = Ret resp
                      /\ json_body resp = Raise e).
Proof.
  destruct (decide (blank k)) as [Hk|Hk].
  { by rewrite tool_blank_key. }
  destruct (decide (blank q)) as [Hq|Hq].
  { by rewrite tool_blank_query. }
  destruct (sess (search_request k q mr)) as [resp|e0] eqn:E.
  - rewrite (tool_get_returns _ _ _ _ _ resp Hk Hq E).
    change (result (?t, ?o)) with o.
    pose proof (handle_response_raises py_repr q resp) as Hr.
    unfold try_except.
    destruct (handle_response q resp) as [t [a|e1]]; [done|].
    specialize (Hr e1 eq_refl). unfold Tools.handler.
    destruct (exn_class e1) eqn:Ec; simpl; try done.
    unfold result; simpl. intros [= ->]. split; [done|].
    right. exists resp. split; [done|].
    destruct Hr as [Hr|Hr]; [done | congruence].
  - rewrite (tool_get_raises _ _ _ _ _ e0 Hk Hq E).
    change (result (?t, ?o)) with o. unfold Tools.handler.
    destruct (exn_class e0) eqn:Ec; simpl; try done.
    unfold result; simpl. intros [= ->]. auto.
Qed.

(** X2. The errors of the function itself never escape it.  An exception
    it raises came from outside: it is the one that arrived while the call
    waited for the rate limiter, with a key and a query that are not blank
    and before anything was logged or sent; or it is no instance of
    [Exception] and is the one the HTTP client or [response.json()]
    raised, once the slot was held. *)
Theorem only_foreign_exceptions_escape acquire k sess q mr e :
  result (Tools.brave_search_tool_awaiting py_repr acquire k sess q mr) = Raise e ->
  (acquire = Raise e /\ ~ blank k /\ ~ blank q
   /\ Tools.brave_search_tool_awaiting py_repr acquire k sess q mr = ([], Raise e))
  \/ (returns acquire /\ exn_class e = BaseExceptionOnly
      /\ (sess (search_request k q mr) = Raise e
          \/ exists resp, sess (search_request k q mr) = Ret resp
                          /\ json_body resp = Raise e)).
Proof.
  destruct (decide (blank k)) as [Hk|Hk].
  { rewrite awaiting_blank, tool_blank_key by auto. done. }
  destruct (decide (blank q)) as [Hq|Hq].
  { rewrite awaiting_blank, tool_blank_query by auto. done. }
  destruct acquire as [u|e0].
  - rewrite awaiting_granted. intros H. right.
    split; [by exists u|]. by apply tool_raise_inv.
  - rewrite awaiting_interrupted by done. intros [= ->]. by left.
Qed.

(** Clamping twice is clamping once: the invocation is the same. *)
Lemma tool_clamped k sess q mr :
  tool k sess q (Z.min (Z.max mr 1) 20) = tool k sess q mr.
Proof.
  unfold Tools.brave_search_tool, Tools.brave_search_tool_awaiting.
  replace (Z.min (Z.max (Z.min (Z.max mr 1) 20) 1) 20)
    with (Z.min (Z.max mr 1) 20) by lia.
  done.
Qed.

(** X4. Unless the status is 200 the body is never decoded: two responses
    with the same status and text give the same run, whatever
    [response.json()] would do. *)
Theorem body_ignored_unless_200 k q mr st txt j1 j2 :
  st <> 200 ->
  Tools.brave_search_tool py_repr k (fun _ => Ret (Response st txt j1)) q mr
  = Tools.brave_search_tool py_repr k (fun _ => Ret (Response st txt j2)) q mr.
Proof.
  intros Hst. unfold Tools.brave_search_tool, Tools.brave_search_tool_awaiting,
    Tools.handle_response.
  io_simpl. apply Z.eqb_neq in Hst. rewrite Hst. simpl.
  by destruct (st =? 429), (st =? 401).
Qed.

Ltac error_prefix :=
  left; eexists; first [reflexivity | vm_compute; reflexivity].

(** X5. Every string the function returns is an error string starting with
    [Error: ], or, on a 200 response whose body was decoded, the no-results
    message or a text starting with the header of the report. *)
Theorem result_forms k sess q mr s :
  result (tool k sess q mr) = Ret s ->
  (exists rest, s = lit "Error: " ++ rest)
  \/ (exists resp data,
        sess (search_request k q mr) = Ret resp
        /\ status_code resp = 200 /\ json_body resp = Ret data
        /\ (s = Tools.msg_no_results q \/ exists body, s = Tools.header q ++ body)).
Proof.
  destruct (decide (blank k)) as [Hk|Hk].
  { rewrite tool_blank_key by done. intros [= <-]. error_prefix. }
  destruct (decide (blank q)) as [Hq|Hq].
  { rewrite tool_blank_query by done. intros [= <-]. error_prefix. }
  destruct (sess (search_request k q mr)) as [resp|e] eqn:E.
  2: { rewrite (tool_get_raises _ _ _ _ _ e Hk Hq E). unfold Tools.handler.
       destruct (exn_class e); intros [= <-]; error_prefix. }
  rewrite (tool_get_returns _ _ _ _ _ resp Hk Hq E).
  change (result (?t, ?o)) with o.
  destruct (decide (status_code resp = 200)) as [E3|E3].
  - destruct (json_body resp) as [data|e] eqn:Ej.
    + destruct (walk_result py_repr q resp data E3 Ej)
        as [Hr | [(body & Hr) | (e & He & Hr)]].
      * rewrite (try_except_ret _ _ _ Hr). intros [= <-].
        right. exists resp, data. auto.
      * rewrite (try_except_ret _ _ _ Hr). intros [= <-].
        right. exists resp, data. repeat split; eauto.
      * rewrite (try_except_raise _ _ e Hr), (handler_ordinary e He).
        intros [= <-]. error_prefix.
    + rewrite (try_except_raise _ _ e).
      * unfold Tools.handler.
        destruct (exn_class e); intros [= <-]; error_prefix.
      * by rewrite (handle_response_200 _ _ _ E3), Ej.
  - assert (exists rest, result (handle_response q resp) = Ret (lit "Error: " ++ rest))
      as (rest & Hr).
    { unfold Tools.handle_response. apply Z.eqb_neq in E3. rewrite E3. simpl.
      destruct (status_code resp =? 429); [eexists; vm_compute; reflexivity|].
      destruct (status_code resp =? 401); eexists; first [reflexivity | vm_compute; reflexivity]. }
    rewrite (try_except_ret _ _ _ Hr). intros [= <-]. error_prefix.
Qed.

End ToolBehaviour.

(** * Bodies of other shapes *)

Section BodyShapes.

Variable py_repr : json -> str.

#[local] Abbreviation tool := (Tools.brave_search_tool py_repr).
#[local] Abbreviation handle_response := (Tools.handle_response py_repr).

(** The loop over objects followed by other items: the objects are
    formatted, and the loop goes on with the rest. *)
Lemma format_loop_objects_then (objs : list (gmap str json)) (l : list json) :
  forall i acc,
    Tools.format_loop py_repr i ((JObj <$> objs) ++ l) acc
    = Tools.format_loop py_repr (Z.of_nat (length objs) + i) l
        (acc ++ mjoin (imap (fun j o => entry py_repr (Z.of_nat j + i) o) objs)).
Proof.
  induction objs as [|o objs IH]; intros i acc; simpl.
  - by rewrite app_nil_r.
  - unfold mbind, outcome_bind; simpl. rewrite format_entry_entry, IH.
    rewrite <- app_assoc.
    replace (Z.of_nat (length objs) + (i + 1)) with (Z.of_nat (S (length objs)) + i)
      by lia.
    do 4 f_equal. apply imap_ext. intros j x _. unfold compose. f_equal. lia.
Qed.

Lemma format_loop_not_object (v : json) (rest : list json) i acc :
  (forall m, v <> JObj m) ->
  Tools.format_loop py_repr i (v :: rest) acc = Raise (Json.no_attribute v "get").
Proof. intros Hv. destruct v; try done. by destruct (Hv m). Qed.

(** The outcome of the whole call is that of the branches on the response,
    an [Exception] turned into the failure message. *)
Lemma tool_result_raise k sess q mr resp e :
  ~ blank k -> ~ blank q -> sess (search_request k q mr) = Ret resp ->
  result (handle_response q resp) = Raise e ->
  exn_class e = OrdinaryException ->
  result (tool k sess q mr) = Ret (Tools.msg_failed e).
Proof.
  intros Hk Hq E Hr He. rewrite (tool_get_returns _ _ _ _ _ resp Hk Hq E).
  change (result (?t, ?o)) with o.
  by rewrite (try_except_raise _ _ e Hr), (handler_ordinary e He).
Qed.

(** X6. One result that is not an object discards the whole report: the
    entries formatted before it are lost, and the function returns the
    failure message of the [AttributeError] on that item. *)
Theorem malformed_result_discards_report
    (k : str) (sess : session) (q : str) (mr : Z) (resp : response)
    (d w : gmap str json) (objs : list (gmap str json)) (v : json) (rest : list json) :
  ~ blank k -> ~ blank q -> sess (search_request k q mr) = Ret resp ->
  status_code resp = 200 -> json_body resp = Ret (JObj d) ->
  d !! lit "web" = Some (JObj w) ->
  w !! lit "results" = Some (JArr ((JObj <$> objs) ++ v :: rest)) ->
  (forall m, v <> JObj m) ->
  result (tool k sess q mr)
  = Ret (lit "Error: Search failed: '" ++ Json.type_name v
         ++ lit "' object has no attribute 'get'").
Proof.
  intros Hk Hq E Hst Hdata Hweb Hres Hv.
  rewrite (tool_result_raise k sess q mr resp (Json.no_attribute v "get") Hk Hq E).
  - by f_equal.
  - rewrite (handle_response_200 _ _ _ Hst), Hdata.
    io_simpl. rewrite Hweb; simpl. rewrite Hres; simpl.
    rewrite format_loop_objects_then, format_loop_not_object by done.
    by destruct objs.
  - done.
Qed.

(** X7. A ["results"] value that is false in Python ([null], [false], [0],
    an empty string, list or object) gives the no-results message, not an
    error. *)
Theorem falsy_results_give_no_results
    (k : str) (sess : session) (q : str) (mr : Z) (resp : response)
    (d w : gmap str json) (v : json) :
  ~ blank k -> ~ blank q -> sess (search_request k q mr) = Ret resp ->
  status_code resp = 200 -> json_body resp = Ret (JObj d) ->
  d !! lit "web" = Some (JObj w) -> w !! lit "results" = Some v ->
  Json.truthy v = false ->
  result (tool k sess q mr) = Ret (lit "No search results found for query: " ++ q).
Proof.
  intros Hk Hq E Hst Hdata Hweb Hres Hv.
  rewrite (tool_get_returns _ _ _ _ _ resp Hk Hq E).
  change (result (?t, ?o)) with o. apply try_except_ret.
  rewrite (handle_response_200 _ _ _ Hst), Hdata.
  io_simpl. rewrite Hweb; simpl. rewrite Hres; simpl. by rewrite Hv.
Qed.

(** X8. A body that is not an object, or whose ["web"] is not an object,
    ends in the failure message of the [AttributeError] on that value:
    a ["web"] that is [null] is an error, where a missing ["web"] is an
    empty result. *)
Theorem non_object_body_fails
    (k : str) (sess : session) (q : str) (mr : Z) (resp : response) (data : json) :
  ~ blank k -> ~ blank q -> sess (search_request k q mr) = Ret resp ->
  status_code resp = 200 -> json_body resp = Ret data ->
  ((forall m, data <> JObj m) ->
   result (tool k sess q mr) = Ret (Tools.msg_failed (Json.no_attribute data "get")))
  /\ (forall (d : gmap str json) v,
        data = JObj d -> d !! lit "web" = Some v -> (forall m, v <> JObj m) ->
        result (tool k sess q mr) = Ret (Tools.msg_failed (Json.no_attribute v "get"))).
Proof.
  intros Hk Hq E Hst Hdata. split.
  - intros Hv. apply (tool_result_raise k sess q mr resp _ Hk Hq E); [|done].
    rewrite (handle_response_200 _ _ _ Hst), Hdata.
    destruct data; try done. by destruct (Hv m).
  - intros d v -> Hweb Hv.
    apply (tool_result_raise k sess q mr resp _ Hk Hq E); [|done].
    rewrite (handle_response_200 _ _ _ Hst), Hdata.
    io_simpl. rewrite Hweb; simpl.
    destruct v; try done. by destruct (Hv m).
Qed.

(** X9. The result is never cut to [max_results]: for a session that
    answers every request alike, the outcome of the call is the same for
    every [max_results]; only the count of the request differs. *)
Theorem result_independent_of_max_results k (o : outcome response) q mr1 mr2 :
  result (tool k (fun _ => o) q mr1) = result (tool k (fun _ => o) q mr2).
Proof.
  destruct (decide (blank k)) as [Hk|Hk].
  { by rewrite !tool_blank_key. }
  destruct (decide (blank q)) as [Hq|Hq].
  { by rewrite !tool_blank_query. }
  destruct o as [resp|e].
  - by rewrite !(tool_get_returns _ _ _ _ _ resp Hk Hq eq_refl).
  - by rewrite !(tool_get_raises _ _ _ _ _ e Hk Hq eq_refl).
Qed.

End BodyShapes.

(** * Further properties of the settings loader *)

Section LoaderBehaviour.

Variable validation_error_str : Config.environ -> list Config.field_error -> str.
Variable py_lower : str -> str.

#[local] Abbreviation load_settings :=
  (Config.load_settings validation_error_str py_lower).

(** The object [load_settings] returns, field by field. *)
Lemma load_settings_ret_inv (env : Config.environ) s :
  load_settings env = Ret s ->
  exists llm_key brave_key dbg,
    Config.api_key_field env "llm_api_key" = inr llm_key
    /\ Config.api_key_field env "brave_api_key" = inr brave_key
    /\ Config.bool_field env "debug" false = inr dbg
    /\ s = {| Config.llm_provider := Config.str_field env "llm_provider" "openai";
              Config.llm_api_key := llm_key;
              Config.llm_model := Config.str_field env "llm_model" "gpt-4o";
              Config.llm_base_url :=
                Config.str_field env "llm_base_url" "https://api.openai.com/v1";
              Config.brave_api_key := brave_key;
              Config.brave_search_url :=
                Config.str_field env "brave_search_url"
                                 "https://api.search.brave.com/res/v1/web/search";
              Config.app_env := Config.str_field env "app_env" "development";
              Config.log_level := Config.str_field env "log_level" "INFO";
              Config.debug := dbg |}.
Proof.
  unfold Config.load_settings, Config.Settings_init.
  destruct (Config.api_key_field env "llm_api_key") as [?|k1],
           (Config.api_key_field env "brave_api_key") as [?|k2],
           (Config.bool_field env "debug" false) as [?|b]; simpl; try done.
  intros [= <-]. by exists k1, k2, b.
Qed.

(** X10. The keys of a loaded [Settings] are the values of the variables
    exactly as set, surrounding whitespace included (the validator tests
    the stripped value and keeps the original), and neither is blank. *)
Theorem loaded_keys_verbatim (env : Config.environ) s :
  load_settings env = Ret s ->
  env !! lit "llm_api_key" = Some (Config.llm_api_key s)
  /\ env !! lit "brave_api_key" = Some (Config.brave_api_key s)
  /\ ~ blank (Config.llm_api_key s) /\ ~ blank (Config.brave_api_key s).
Proof.
  intros (k1 & k2 & b & H1 & H2 & _ & ->)%load_settings_ret_inv. simpl.
  pose proof (api_key_field_spec env "llm_api_key") as S1.
  pose proof (api_key_field_spec env "brave_api_key") as S2.
  rewrite H1 in S1. rewrite H2 in S2. tauto.
Qed.

(** A loaded [Settings] holds, for each optional text field, the value
    of its variable when set (an empty value included) and its default
    otherwise, and for [debug] the boolean its variable spells, [False]
    when unset. *)
Lemma loaded_fields_or_defaults (env : Config.environ) s :
  load_settings env = Ret s ->
  Config.llm_provider s = default (lit "openai") (env !! lit "llm_provider")
  /\ Config.llm_model s = default (lit "gpt-4o") (env !! lit "llm_model")
  /\ Config.llm_base_url s
     = default (lit "https://api.openai.com/v1") (env !! lit "llm_base_url")
  /\ Config.brave_search_url s
     = default (lit "https://api.search.brave.com/res/v1/web/search")
               (env !! lit "brave_search_url")
  /\ Config.app_env s = default (lit "development") (env !! lit "app_env")
  /\ Config.log_level s = default (lit "INFO") (env !! lit "log_level")
  /\ match env !! lit "debug" with
     | None => Config.debug s = false
     | Some v => Config.parse_bool v = Some (Config.debug s)
     end.
Proof.
  intros (k1 & k2 & b & _ & _ & Hd & ->)%load_settings_ret_inv. simpl.
  repeat split. unfold Config.bool_field in Hd.
  destruct (env !! lit "debug") as [v|]; [|by injection Hd as <-].
  destruct (Config.parse_bool v); [by injection Hd as <- | done].
Qed.

Ltac in_list := apply list_elem_of_In; simpl in *; tauto.

(** X11. Variables that name no field are ignored: adding one changes
    neither a successful load nor the fact that a load fails. *)
Theorem other_variables_ignored (env : Config.environ) (name value : str) :
  name ∉ (lit <$> ["llm_provider"; "llm_api_key"; "llm_model"; "llm_base_url";
                   "brave_api_key"; "brave_search_url"; "app_env"; "log_level";
                   "debug"])%string ->
  (forall s, load_settings env = Ret s -> load_settings (<[name := value]> env) = Ret s)
  /\ (raises (load_settings env) -> raises (load_settings (<[name := value]> env))).
Proof.
  intros Hname.
  assert (forall f : string,
            f ∈ ["llm_provider"; "llm_api_key"; "llm_model"; "llm_base_url";
                 "brave_api_key"; "brave_search_url"; "app_env"; "log_level";
                 "debug"]%string ->
            <[name := value]> env !! lit f = env !! lit f) as Hlook.
  { intros f Hf. apply lookup_insert_ne. intros ->. apply Hname.
    by apply list_elem_of_fmap_2. }
  assert (forall f dflt, f ∈ ["llm_provider"; "llm_model"; "llm_base_url";
                              "brave_search_url"; "app_env"; "log_level"]%string ->
            Config.str_field (<[name := value]> env) f dflt
            = Config.str_field env f dflt) as Hstr.
  { intros f dflt Hf. unfold Config.str_field. rewrite Hlook; [done|].
    apply list_elem_of_In in Hf. in_list. }
  assert (forall f, f ∈ ["llm_api_key"; "brave_api_key"]%string ->
            Config.api_key_field (<[name := value]> env) f
            = Config.api_key_field env f) as Hkey.
  { intros f Hf. unfold Config.api_key_field. rewrite Hlook; [done|].
    apply list_elem_of_In in Hf. in_list. }
  assert (Config.bool_field (<[name := value]> env) "debug" false
          = Config.bool_field env "debug" false) as Hbool.
  { unfold Config.bool_field. rewrite Hlook; [done|]. in_list. }
  unfold raises, Config.load_settings, Config.Settings_init.
  rewrite !Hkey, Hbool, !Hstr by in_list.
  destruct (Config.api_key_field env "llm_api_key") as [?|k1],
           (Config.api_key_field env "brave_api_key") as [?|k2],
           (Config.bool_field env "debug" false) as [?|b]; simpl;
    split; try done; intros _; by eexists.
Qed.

(** What [load_settings] makes of the text of the error [Settings()]
    raised. *)
Lemma load_settings_raise_inv (env : Config.environ) e :
  load_settings env = Raise e ->
  let text := validation_error_str env (Config.validation_errors env) in
  Config.Settings_init validation_error_str env
  = Raise (Exn OrdinaryException text)
  /\ e = ValueError
           ((if contains (lit "brave_api_key") (py_lower text)
             then fun msg => msg ++ Config.HINT_BRAVE else id)
              ((if contains (lit "llm_api_key") (py_lower text)
                then fun msg => msg ++ Config.HINT_LLM else id)
                 (lit "Failed to load settings: " ++ text))).
Proof.
  unfold Config.load_settings.
  destruct (Config.Settings_init validation_error_str env) as [s|e0] eqn:E;
    [done|].
  assert (e0 = Exn OrdinaryException
                   (validation_error_str env (Config.validation_errors env)))
    as ->.
  { unfold Config.Settings_init in E. repeat case_match; by simplify_eq. }
  simpl. intros [= <-]. split; [done|]. by repeat case_match.
Qed.

(** X12. When the validation of [Settings()] fails, [load_settings] does
    not let the validation error through: it raises a [ValueError] whose
    text is [Failed to load settings: ], the text of the validation error,
    then the line about [LLM_API_KEY] exactly when that text, lower-cased,
    holds [llm_api_key], then the line about [BRAVE_API_KEY] exactly when
    it holds [brave_api_key]. *)
Theorem load_error_is_wrapped (env : Config.environ) e :
  Config.load_settings validation_error_str py_lower env = Raise e ->
  let text := validation_error_str env (Config.validation_errors env) in
  Config.Settings_init validation_error_str env
  = Raise (Exn OrdinaryException text)
  /\ exn_class e = OrdinaryException
  /\ exn_str e
     = lit "Failed to load settings: " ++ text
       ++ (if contains (lit "llm_api_key") (py_lower text)
           then nl ++ lit "Make sure to set LLM_API_KEY in your .env file"
           else [])
       ++ (if contains (lit "brave_api_key") (py_lower text)
           then nl ++ lit "Make sure to set BRAVE_API_KEY in your .env file"
           else []).
Proof.
  intros (Hinit & ->)%load_settings_raise_inv. split; [exact Hinit|].
  split; [done|]. simpl. unfold Config.HINT_LLM, Config.HINT_BRAVE.
  repeat case_match; simpl; by rewrite <- ?app_assoc, ?app_nil_r.
Qed.

End LoaderBehaviour.

(** * Further properties of the agent *)

Section AgentBehaviour.

Import Dependencies.

Variable py_repr : json -> str.
Variable validation_error_str : Config.environ -> list Config.field_error -> str.
Variable py_lower : str -> str.
Variable agent_run : str -> BraveSearchDependencies -> io str.
Variable agent_run_sync : str -> BraveSearchDependencies -> io str.

#[local] Abbreviation tool := (Tools.brave_search_tool py_repr).
#[local] Abbreviation search_web := (Agent.search_web py_repr).
#[local] Abbreviation load_settings :=
  (Config.load_settings validation_error_str py_lower).
#[local] Abbreviation create := (create validation_error_str py_lower).
#[local] Abbreviation run_research :=
  (Agent.run_research validation_error_str py_lower agent_run).
#[local] Abbreviation run_research_sync :=
  (Agent.run_research_sync validation_error_str py_lower agent_run_sync).

(** [search_web] logs its line, then is the tool on the key and session of
    the dependencies. *)
Lemma search_web_unfold deps q mr :
  search_web deps q mr =
    (EvLog INFO (lit "Agent executing search for: " ++ q)
       :: trace (tool (brave_api_key deps) (client_get (session deps)) q mr),
     result (tool (brave_api_key deps) (client_get (session deps)) q mr)).
Proof.
  unfold Agent.search_web, Agent.search_web_calling, try_except. rewrite tool_clamped.
  pose proof (tool_raise_inv py_repr (brave_api_key deps)
                (client_get (session deps)) q mr) as Hraise.
  io_simpl. destruct (tool _ _ _ _) as [t [a|e]]; simpl.
  - by rewrite app_nil_r.
  - destruct (Hraise e eq_refl) as [-> _]. simpl. by rewrite !app_nil_r.
Qed.

(** X3. The [except Exception] clause of [search_web] is never taken: the
    tool logs its line and then does and returns exactly what
    [brave_search_tool] does on the key and session of the dependencies, so
    [Web search failed: ...] is never produced. *)
Theorem search_web_is_the_tool deps q mr :
  search_web deps q mr =
    (EvLog INFO (lit "Agent executing search for: " ++ q)
       :: trace (tool (brave_api_key deps) (client_get (session deps)) q mr),
     result (tool (brave_api_key deps) (client_get (session deps)) q mr)).
Proof. apply search_web_unfold. Qed.

(** The dependencies [create] returns. *)
Lemma create_ret_inv env new_client sid t deps :
  create env new_client sid = (t, Ret deps) ->
  exists settings,
    load_settings env = Ret settings
    /\ t = [EvClientCreate]
    /\ deps = {| brave_api_key := Config.brave_api_key settings;
                 session := new_client;
                 session_id := sid |}.
Proof.
  unfold Dependencies.create.
  destruct (load_settings env) as [settings|e]; io_simpl; [|done].
  intros [= <- <-]. by exists settings.
Qed.

(** X13. Dependencies that [create] returned always pass the key guard of
    the tool: with them, [search_web] on a query that is not blank sends
    exactly one GET, carrying the key of the environment. *)
Theorem created_dependencies_search env new_client sid t deps q mr :
  create env new_client sid = (t, Ret deps) -> ~ blank q ->
  env !! lit "brave_api_key" = Some (brave_api_key deps)
  /\ count_gets (trace (search_web deps q mr)) = 1%nat
  /\ In (EvGet (search_request (brave_api_key deps) q mr))
        (trace (search_web deps q mr)).
Proof.
  intros (settings & Hs & _ & ->)%create_ret_inv Hq. simpl.
  destruct (loaded_keys_verbatim _ _ _ _ Hs) as (_ & Hkey & _ & Hnb).
  split; [done|]. rewrite search_web_unfold.
  change (trace (?t, ?o)) with t. simpl. split.
  - by apply exactly_one_get.
  - right. destruct (client_get new_client (search_request
                       (Config.brave_api_key settings) q mr)) as [resp|e] eqn:E.
    + rewrite (tool_get_returns _ _ _ _ _ resp Hnb Hq E). simpl. auto.
    + rewrite (tool_get_raises _ _ _ _ _ e Hnb Hq E). simpl. auto.
Qed.

(** X14. The outcome of both entry points is that of the model run, unless
    closing the client raises: then the caller gets the exception of
    [aclose()], and the text of a run that had succeeded is lost. *)
Theorem close_failure_replaces_outcome env new_client query sid mr settings :
  load_settings env = Ret settings ->
  let deps := {| brave_api_key := Config.brave_api_key settings;
                 session := new_client;
                 session_id := sid |} in
  result (run_research env new_client query sid mr) =
    match client_aclose new_client with
    | Ret _ => result (agent_run query deps)
    | Raise e => Raise e
    end
  /\ result (run_research_sync env new_client query sid mr) =
       match client_aclose new_client with
       | Ret _ => result (agent_run_sync query deps)
       | Raise e => Raise e
       end.
Proof.
  intros Hs deps.
  unfold Agent.run_research, Agent.run_research_sync, Dependencies.create, close,
    try_finally.
  rewrite Hs. io_simpl. split.
  - destruct (agent_run _ _) as [t o]; simpl.
    by destruct (client_aclose new_client).
  - destruct (agent_run_sync _ _) as [t o]; simpl.
    by destruct (client_aclose new_client).
Qed.

End AgentBehaviour.

(** * The validation script *)

Section Validation.

Import Validate.

Ltac script_simpl :=
  unfold mbind, script_bind, mret, script_ret, outcome_bind, outcome_ret, eval,
    print, stdout, returned in *;
  simpl in *.

(** A loop over checks that meets a [bool] in the place of a pattern never
    answers [True]: it answers [False] before it, or raises the
    [TypeError] on it. *)
Lemma pattern_loop_with_bool (checks : list (str * pattern)) (content : str) :
  (exists name b, In (name, PBool b) checks) ->
  match returned (pattern_loop checks content) with
  | Ret ok => ok = false
  | Raise e => exn_class e = OrdinaryException
  end.
Proof.
  induction checks as [|[name p] checks IH]; intros (n & b & Hin); [done|].
  simpl. destruct p as [s|b']; script_simpl; [|done].
  destruct (negb (contains s content)); script_simpl; [done|].
  destruct Hin as [[= ]|Hin].
  specialize (IH (ex_intro _ n (ex_intro _ b Hin))).
  destruct (pattern_loop checks content) as [t [ok|e]]; done.
Qed.

(** X15. [validate_agent_pattern] never answers [True]: its seventh check
    holds a [bool] where a text is expected, so whatever [agent.py]
    contains the function answers [False] (at a missing pattern, or in the
    handler of the [TypeError] on that check), unless reading the file
    raises what is no [Exception], which propagates. *)
Theorem validate_agent_pattern_never_true (fs : filesystem) :
  match returned (validate_agent_pattern fs) with
  | Ret ok => ok = false
  | Raise e =>
      exn_class e = BaseExceptionOnly /\ read_text fs (lit "agent.py") = Raise e
  end.
Proof.
  unfold validate_agent_pattern, try_except_Exception.
  destruct (read_text fs (lit "agent.py")) as [content|e] eqn:E.
  - assert (exists name b, In (name, PBool b) (agent_checks content)) as Hbool.
    { eexists _, _. unfold agent_checks. do 6 right. by left. }
    pose proof (pattern_loop_with_bool (agent_checks content) content Hbool) as H.
    unfold returned, mbind, script_bind, eval, print in *.
    cbn -[pattern_loop agent_checks].
    destruct (pattern_loop (agent_checks content) content) as [t [ok|e]];
      cbn in *; [done|].
    by rewrite H.
  - script_simpl. by destruct (exn_class e) eqn:Ec.
Qed.

(** Whenever it returns, the validation of the agent pattern answers
    [False]. *)
Lemma agent_pattern_false (fs : filesystem) :
  match returned (validate_agent_pattern fs) with
  | Ret ok => ok = false
  | Raise _ => True
  end.
Proof.
  unfold validate_agent_pattern, try_except_Exception.
  destruct (read_text fs (lit "agent.py")) as [content|e] eqn:E.
  - assert (exists name b, In (name, PBool b) (agent_checks content)) as Hbool.
    { eexists _, _. unfold agent_checks. do 6 right. by left. }
    pose proof (pattern_loop_with_bool (agent_checks content) content Hbool) as H.
    unfold returned, mbind, script_bind, eval, print in *.
    cbn -[pattern_loop agent_checks].
    destruct (pattern_loop (agent_checks content) content) as [t [ok|e]];
      cbn in *; [done|].
    by rewrite H.
  - script_simpl. by destruct (exn_class e) eqn:Ec.
Qed.

(** The summary counts one failure more for each validation that failed. *)
Lemma summary_loop_counts (validations : list (str * bool)) : forall passed failed,
  exists lines passed' failed',
    summary_loop validations passed failed = (lines, Ret (passed', failed'))
    /\ failed <= failed'
    /\ ((exists name, In (name, false) validations) -> failed < failed').
Proof.
  induction validations as [|[name ok] rest IH]; intros passed failed.
  - exists [], passed, failed. split; [done|]. split; [lia|]. by intros [? []].
  - simpl. destruct ok; script_simpl.
    + destruct (IH (passed + 1) failed) as (l & p' & f' & -> & Hle & Hlt).
      eexists _, _, _. split; [done|]. split; [done|].
      intros (n & [[= ]|Hin]). apply Hlt. by exists n.
    + destruct (IH passed (failed + 1)) as (l & p' & f' & -> & Hle & Hlt).
      eexists _, _, _. split; [done|]. split; lia.
Qed.

(** X16. [main] never answers [True]: the validation of the agent pattern
    always fails, so whenever [main] returns it has counted a failure and
    answers [False], whatever the files and the two mocked validations. *)
Theorem main_never_true py_lower (validate_settings_logic validate_tools_logic : script bool)
    (fs : filesystem) :
  match returned (main py_lower validate_settings_logic validate_tools_logic fs) with
  | Ret ok => ok = false
  | Raise _ => True
  end.
Proof.
  pose proof (agent_pattern_false fs) as H5.
  unfold main, returned, mbind, script_bind, mret, script_ret, print in *.
  cbn -[summary_loop validate_agent_structure validate_imports
        validate_agent_pattern validate_security_patterns validate_test_structure].
  destruct (validate_agent_structure fs) as [t1 [r1|?]]; [|done].
  destruct (validate_imports fs) as [t2 [r2|?]]; [|done].
  destruct validate_settings_logic as [t3 [r3|?]]; [|done].
  destruct validate_tools_logic as [t4 [r4|?]]; [|done].
  destruct (validate_agent_pattern fs) as [t5 [r5|?]]; [|done].
  cbn in H5. subst r5.
  destruct (validate_security_patterns py_lower fs) as [t6 [r6|?]]; [|done].
  destruct (validate_test_structure fs) as [t7 [r7|?]]; [|done].
  match goal with
  | |- context [summary_loop ?v ?p ?f] =>
      destruct (summary_loop_counts v p f) as (l & p' & f' & Hs & _ & Hlt)
  end.
  rewrite Hs. cbn.
  assert (0 < f') as Hpos.
  { apply Hlt. exists (lit "Agent Pattern"). simpl. auto 10. }
  destruct (f' =? 0) eqn:E; [apply Z.eqb_eq in E; lia|]. done.
Qed.

Lemma assert_all_spec (patterns : list str) (content : str) :
  match assert_all patterns content with
  | Ret _ => Forall (fun p => contains p content = true) patterns
  | Raise e =>
      e = AssertionError /\ ~ Forall (fun p => contains p content = true) patterns
  end.
Proof.
  induction patterns as [|p rest IH]; simpl; [done|].
  destruct (contains p content) eqn:Hp.
  - destruct (assert_all rest content).
    + by constructor.
    + destruct IH as [-> Hn]. split; [done|]. by inversion 1.
  - split; [done|]. inversion 1; congruence.
Qed.

Lemma imports_loop_spec (fs : filesystem) (files : list str) :
  (returned (imports_loop fs files) = Ret true <-> Forall (import_ok fs) files)
  /\ match returned (imports_loop fs files) with
     | Ret _ => True
     | Raise e => exn_class e = BaseExceptionOnly
     end.
Proof.
  induction files as [|file rest [IH1 IH2]]; [done|].
  rewrite Forall_cons. unfold returned, import_ok in *. simpl.
  unfold try_except_Exception, mbind, script_bind, eval, print, mret, script_ret.
  pose proof (assert_all_spec (import_patterns file)) as Ha.
  destruct (read_text fs file) as [content|e] eqn:E; cbn -[imports_loop].
  - specialize (Ha content).
    destruct (assert_all (import_patterns file) content) as [[]|e];
      cbn -[imports_loop].
    + destruct (imports_loop fs rest) as [t o]. cbn in *.
      split; [|exact IH2]. rewrite IH1. split; [|tauto].
      intros H. split; [by exists content | exact H].
    + destruct Ha as [-> Hn]. cbn. split; [|exact I]. split; [done|].
      intros [(c & Hc & Hall) _]. by simplify_eq.
  - destruct (exn_class e) eqn:Ec; cbn;
      (split; [split; [done | intros [(c & Hc & _) _]; congruence] | done]).
Qed.

(** X17. [validate_imports] answers [True] exactly when each of the five
    source files can be read and holds every text asserted of it; a file
    that is missing, unreadable or lacks a text makes it answer [False]
    after the files before it were reported valid, and no [Exception]
    leaves the function. *)
Theorem validate_imports_decides (fs : filesystem) :
  (returned (validate_imports fs) = Ret true
   <-> Forall (fun file =>
                 exists content,
                   read_text fs file = Ret content
                   /\ Forall (fun p => contains p content = true)
                             (import_patterns file))
              FILES_TO_CHECK)
  /\ match returned (validate_imports fs) with
     | Ret _ => True
     | Raise e => exn_class e = BaseExceptionOnly
     end.
Proof.
  pose proof (imports_loop_spec fs FILES_TO_CHECK) as H.
  unfold validate_imports, returned, import_ok, mbind, script_bind, print in *.
  cbn -[imports_loop FILES_TO_CHECK].
  by destruct (imports_loop fs FILES_TO_CHECK) as [t o].
Qed.

Lemma tests_loop_spec (fs : filesystem) (files : list str) :
  (returned (tests_loop fs files) = Ret true
   <-> Forall (fun file =>
                 path_exists fs file = true
                 /\ exists content, read_text fs file = Ret content
                                    /\ has_test_pattern content = true) files)
  /\ (forall e, returned (tests_loop fs files) = Raise e ->
               exists file, In file files /\ read_text fs file = Raise e).
Proof.
  induction files as [|file rest [IH1 IH2]]; [done|].
  rewrite Forall_cons. unfold returned in *. simpl.
  unfold mbind, script_bind, eval, print, mret, script_ret.
  destruct (path_exists fs file) eqn:Hex; cbn -[tests_loop].
  2: { split; [|done]. split; [done|]. by intros [[? _] _]. }
  destruct (read_text fs file) as [content|e] eqn:E; cbn -[tests_loop].
  2: { split.
       - split; [done|]. intros [(_ & c & Hc & _) _]. congruence.
       - intros e' [= <-]. exists file. auto. }
  destruct (has_test_pattern content) eqn:Hp; cbn -[tests_loop].
  - destruct (tests_loop fs rest) as [t o]. cbn in *. split.
    + rewrite IH1. split; [|tauto].
      intros H. split; [|exact H]. split; [done|]. by exists content.
    + intros e He. destruct (IH2 e He) as (f & Hin & Hf). exists f. auto.
  - split; [|done]. split; [done|].
    intros [(_ & c & Hc & Hpc) _]. simplify_eq. congruence.
Qed.

(** X18. [validate_test_structure] answers [True] exactly when each of the
    five test files exists, can be read, and mentions [TestModel],
    [FunctionModel] or [@pytest.mark.asyncio]; it has no handler, so an
    exception while reading a file that exists leaves the function. *)
Theorem validate_test_structure_decides (fs : filesystem) :
  (returned (validate_test_structure fs) = Ret true
   <-> Forall (fun file =>
                 path_exists fs file = true
                 /\ exists content, read_text fs file = Ret content
                                    /\ has_test_pattern content = true)
              TEST_FILES)
  /\ (forall e, returned (validate_test_structure fs) = Raise e ->
               exists file, In file TEST_FILES /\ read_text fs file = Raise e).
Proof.
  pose proof (tests_loop_spec fs TEST_FILES) as H.
  unfold validate_test_structure, returned, mbind, script_bind, print in *.
  cbn -[tests_loop TEST_FILES].
  by destruct (tests_loop fs TEST_FILES) as [t o].
Qed.

#[local] Opaque CROSS CHECK MAGNIFIER.

(** One turn of the loop over the sources. *)
Lemma secrets_step py_lower (fs : filesystem) file rest checks sc :
  secrets_loop py_lower fs (file :: rest) checks sc =
    match read_text fs file with
    | Raise e => ([], Raise e)
    | Ret text =>
        if contains (lit "sk-") (py_lower text) || contains ASSIGNED_KEY (py_lower text)
        then secrets_loop py_lower fs rest
               (checks ++ [CROSS ++ lit " Potential hardcoded secret in " ++ file]) false
        else secrets_loop py_lower fs rest checks sc
    end.
Proof.
  simpl. unfold mbind, script_bind, eval.
  destruct (read_text fs file); [|done].
  by destruct (secrets_loop py_lower fs rest _ _), (secrets_loop py_lower fs rest _ _),
     (contains (lit "sk-") (py_lower a) || contains ASSIGNED_KEY (py_lower a)).
Qed.

(** The loop over the sources leaves the checks as they are when every
    source is clean, appends a line naming a flagged source otherwise, and
    raises when a source cannot be read. *)
Lemma secrets_loop_spec py_lower (fs : filesystem) (files : list str) :
  forall checks sc,
  match secrets_loop py_lower fs files checks sc with
  | (lines, Ret (checks', sc')) =>
      lines = []
      /\ ((Forall (source_clean py_lower fs) files /\ checks' = checks /\ sc' = sc)
          \/ (~ Forall (source_clean py_lower fs) files /\ sc' = false
              /\ exists pre file post,
                   In file files
                   /\ checks' = pre ++ (CROSS ++ lit " Potential hardcoded secret in "
                                        ++ file) :: post))
  | (_, Raise _) => ~ Forall (source_clean py_lower fs) files
  end.
Proof.
  induction files as [|file rest IH]; intros checks sc.
  { simpl. split; [done|]. left. done. }
  assert (forall text, read_text fs file = Ret text ->
            (source_clean py_lower fs file <->
             contains (lit "sk-") (py_lower text) = false
             /\ contains ASSIGNED_KEY (py_lower text) = false)) as Hclean.
  { intros text E. unfold source_clean. rewrite E. split.
    - by intros (t & [= <-] & H).
    - intros H. by exists text. }
  rewrite secrets_step.
  destruct (read_text fs file) as [text|e] eqn:E.
  2: { rewrite Forall_cons. intros [(t & Ht & _) _]. congruence. }
  specialize (Hclean text eq_refl).
  destruct (contains (lit "sk-") (py_lower text) || contains ASSIGNED_KEY (py_lower text))
    eqn:Hflag.
  - assert (~ source_clean py_lower fs file) as Hdirty.
    { rewrite Hclean. intros [H1 H2]. by rewrite H1, H2 in Hflag. }
    specialize (IH (checks ++ [CROSS ++ lit " Potential hardcoded secret in " ++ file])
                  false).
    destruct (secrets_loop py_lower fs rest _ false) as [lines [[c' s']|e]];
      rewrite Forall_cons; [|tauto].
    destruct IH as [-> [(Hc & -> & ->) | (Hn & -> & pre & f & post & Hin & ->)]];
      (split; [done|]); right; (split; [tauto|]); (split; [done|]).
    + exists checks, file, []. split; [by left | done].
    + exists pre, f, post. split; [by right | done].
  - assert (source_clean py_lower fs file) as Hok.
    { rewrite Hclean. by apply orb_false_elim in Hflag. }
    specialize (IH checks sc).
    destruct (secrets_loop py_lower fs rest checks sc) as [lines [[c' s']|e]];
      rewrite Forall_cons; [|tauto].
    destruct IH as [-> [(Hc & -> & ->) | (Hn & -> & pre & f & post & Hin & ->)]];
      (split; [done|]).
    + left. done.
    + right. split; [tauto|]. split; [done|].
      exists pre, f, post. split; [by right | done].
Qed.

Lemma print_all_prints (lines : list str) : print_all lines = (lines, Ret tt).
Proof.
  induction lines as [|l rest IH]; [done|].
  simpl. unfold mbind, script_bind, print. by rewrite IH.
Qed.

(** The line of a flagged source holds no check mark. *)
Lemma flagged_line_has_no_check (file : str) (pre post : list str) :
  In file SECRET_FILES ->
  forallb (contains CHECK)
    (pre ++ (CROSS ++ lit " Potential hardcoded secret in " ++ file) :: post) = false.
Proof.
  intros Hin. rewrite forallb_app. cbn [forallb].
  assert (contains CHECK (CROSS ++ lit " Potential hardcoded secret in " ++ file) = false)
    as ->.
  { destruct Hin as [<-|[<-|[<-|[]]]]; vm_compute; reflexivity. }
  by rewrite andb_false_r.
Qed.

(** X19. [validate_security_patterns] answers [True] exactly when
    [.env.example] exists and names both keys, [.gitignore] exists and
    holds both [.env] and [*.env], and each of the three sources can be
    read and, lower-cased, holds neither [sk-] nor an assigned [api_key]. *)
Theorem validate_security_patterns_decides py_lower (fs : filesystem) :
  returned (validate_security_patterns py_lower fs) = Ret true
  <-> (path_exists fs (lit ".env.example") = true
       /\ exists c, read_text fs (lit ".env.example") = Ret c
                    /\ contains (lit "LLM_API_KEY") c = true
                    /\ contains (lit "BRAVE_API_KEY") c = true)
      /\ (path_exists fs (lit ".gitignore") = true
          /\ exists c, read_text fs (lit ".gitignore") = Ret c
                       /\ contains (lit ".env") c = true
                       /\ contains (lit "*.env") c = true)
      /\ Forall (fun file =>
                   exists text,
                     read_text fs file = Ret text
                     /\ contains (lit "sk-") (py_lower text) = false
                     /\ contains ASSIGNED_KEY (py_lower text) = false)
                SECRET_FILES.
Proof.
  fold (source_clean py_lower fs).
  unfold validate_security_patterns, returned.
  unfold mbind, script_bind, mret, script_ret, eval, print.
  cbn -[secrets_loop SECRET_FILES print_all forallb].
  destruct (path_exists fs (lit ".env.example")) eqn:Hx1;
    [destruct (read_text fs (lit ".env.example")) as [c1|e1] eqn:Hr1;
     [destruct (contains (lit "LLM_API_KEY") c1) eqn:Ha1;
      [destruct (contains (lit "BRAVE_API_KEY") c1) eqn:Hb1|]|]|];
    cbn -[secrets_loop SECRET_FILES print_all forallb].
  all: try (split; [done | intros [(? & c & ? & ? & ?) _]; simplify_eq; congruence]).
  all: destruct (path_exists fs (lit ".gitignore")) eqn:Hx2;
    [destruct (read_text fs (lit ".gitignore")) as [c2|e2] eqn:Hr2;
     [destruct (contains (lit ".env") c2) eqn:Ha2;
      [destruct (contains (lit "*.env") c2) eqn:Hb2|]|]|];
    cbn -[secrets_loop SECRET_FILES print_all forallb].
  all: try (split; [done | intros (_ & (? & c & ? & ? & ?) & _); simplify_eq; congruence]).
  all: match goal with
       | |- context [secrets_loop _ _ _ ?cs true] =>
           pose proof (secrets_loop_spec py_lower fs SECRET_FILES cs true) as Hloop;
           destruct (secrets_loop py_lower fs SECRET_FILES cs true)
             as [lines [[checks' sc']|e]]
       end.
  all: cbn -[SECRET_FILES print_all forallb].
  all: try (split; [done | tauto]).
  all: destruct Hloop as [-> [(Hc & -> & ->) | (Hn & -> & pre & f & post & Hin & ->)]].
  all: rewrite print_all_prints; cbn -[SECRET_FILES forallb].
  all: rewrite ?flagged_line_has_no_check by done.
  all: try (split; [done | tauto]).
  all: match goal with
       | |- context [forallb ?f ?l] =>
           let b := eval vm_compute in (forallb f l) in change (forallb f l) with b
       end.
  all: split; try done.
  all: try (intros [(? & ca & ? & ? & ?) [(? & cb & ? & ? & ?) ?]];
            simplify_eq; congruence).
  all: intros _; repeat split; eauto.
Qed.

End Validation.

(** * Further concrete runs *)

Section MoreRuns.

Import Examples Scenarios Validate.

#[local] Abbreviation tool := (Tools.brave_search_tool no_repr).
#[local] Abbreviation load_settings := (Config.load_settings no_error_text no_lower).

(** X1 at the key and query of the tests. *)
Lemma request_sent_witness :
  (~ blank key /\ ~ blank query)
  /\ exists logs,
       forallb is_log logs = true
       /\ trace (tool key (sess_of resp_two_results) query 25) =
            EvLimiterEnter
              :: EvLog INFO (lit "Searching Brave for: " ++ query
                             ++ lit " (max_results: " ++ of_Z 20 ++ lit ")")
              :: EvGet (Request Tools.SEARCH_URL key (lit "application/json") query
                                20 (lit "en"))
              :: logs ++ [EvLimiterExit].
Proof.
  split; [split; [exact key_not_blank | exact query_not_blank]|].
  exact (request_sent no_repr key (sess_of resp_two_results) query 25
           key_not_blank query_not_blank).
Defined.

Lemma cancelled_run :
  result (tool key (sess_raising cancelled_error) query 10) = Raise cancelled_error.
Proof. vm_compute. reflexivity. Qed.

Lemma cancelled_wait :
  result (Tools.brave_search_tool_awaiting no_repr (Raise cancelled_error) key
            (sess_of resp_two_results) query 10)
  = Raise cancelled_error.
Proof. vm_compute. reflexivity. Qed.

Lemma cancelled_request :
  result (Tools.brave_search_tool_awaiting no_repr (Ret tt) key
            (sess_raising cancelled_error) query 10)
  = Raise cancelled_error.
Proof. vm_compute. reflexivity. Qed.

(** X2 at a call cancelled while it waits for the limiter, and at a call
    cancelled during its request. *)
Lemma only_foreign_exceptions_escape_witness :
  (result (Tools.brave_search_tool_awaiting no_repr (Raise cancelled_error) key
             (sess_of resp_two_results) query 10)
   = Raise cancelled_error
   /\ result (Tools.brave_search_tool_awaiting no_repr (Ret tt) key
                (sess_raising cancelled_error) query 10)
      = Raise cancelled_error)
  /\ Tools.brave_search_tool_awaiting no_repr (Raise cancelled_error) key
       (sess_of resp_two_results) query 10
     = ([], Raise cancelled_error)
  /\ exn_class cancelled_error = BaseExceptionOnly.
Proof.
  split; [split; [exact cancelled_wait | exact cancelled_request]|]. split.
  - destruct (only_foreign_exceptions_escape no_repr (Raise cancelled_error) key
                (sess_of resp_two_results) query 10 cancelled_error
                cancelled_wait) as [(_ & _ & _ & H) | ([u Hu] & _)].
    + exact H.
    + discriminate Hu.
  - destruct (only_foreign_exceptions_escape no_repr (Ret tt) key
                (sess_raising cancelled_error) query 10 cancelled_error
                cancelled_request) as [(Hu & _) | (_ & H & _)].
    + discriminate Hu.
    + exact H.
Defined.

(** X4 at status 500. *)
Lemma body_ignored_unless_200_witness :
  500 <> 200
  /\ tool key (fun _ => Ret (Response 500 (lit "oops") (Raise JSONDecodeError))) query 10
     = tool key (fun _ => Ret (Response 500 (lit "oops") (Ret JNull))) query 10.
Proof.
  split; [discriminate|].
  apply (body_ignored_unless_200 no_repr key query 10 500). discriminate.
Defined.

Lemma two_results_run :
  result (tool key (sess_of resp_two_results) query 5)
  = Ret (report no_repr query [result_1; result_2]).
Proof. vm_compute. reflexivity. Qed.

(** X5 at the response of [test_successful_search]. *)
Lemma result_forms_witness :
  result (tool key (sess_of resp_two_results) query 5)
    = Ret (report no_repr query [result_1; result_2])
  /\ ((exists rest, report no_repr query [result_1; result_2] = lit "Error: " ++ rest)
      \/ (exists resp data,
            sess_of resp_two_results (search_request key query 5) = Ret resp
            /\ status_code resp = 200 /\ json_body resp = Ret data
            /\ (report no_repr query [result_1; result_2] = Tools.msg_no_results query
                \/ exists body,
                     report no_repr query [result_1; result_2]
                     = Tools.header query ++ body))).
Proof.
  split; [exact two_results_run|].
  exact (result_forms no_repr key (sess_of resp_two_results) query 5 _ two_results_run).
Defined.

(** X6 at a list whose second item is [null]: the first entry is lost. *)
Lemma malformed_result_discards_report_witness :
  (~ blank key /\ ~ blank query)
  /\ result (tool key (sess_of resp_bad_item) query 10)
     = Ret (lit "Error: Search failed: 'NoneType' object has no attribute 'get'").
Proof.
  split; [split; [exact key_not_blank | exact query_not_blank]|].
  refine (eq_trans
    (malformed_result_discards_report no_repr key (sess_of resp_bad_item) query 10
       resp_bad_item _ _ [result_1] JNull [JObj result_2]
       key_not_blank query_not_blank eq_refl eq_refl eq_refl _ _ _) _).
  - vm_compute. reflexivity.
  - vm_compute. reflexivity.
  - discriminate.
  - vm_compute. reflexivity.
Defined.

(** X7 at ["results": null]. *)
Lemma falsy_results_give_no_results_witness :
  (~ blank key /\ ~ blank query /\ Json.truthy JNull = false)
  /\ result (tool key (sess_of resp_null_results) query 10)
     = Ret (lit "No search results found for query: " ++ query).
Proof.
  split; [split; [exact key_not_blank | split; [exact query_not_blank | reflexivity]]|].
  refine (falsy_results_give_no_results no_repr key (sess_of resp_null_results) query 10
            resp_null_results _ _ JNull
            key_not_blank query_not_blank eq_refl eq_refl eq_refl _ _ eq_refl).
  - vm_compute. reflexivity.
  - vm_compute. reflexivity.
Defined.

(** X8 at ["web": null]. *)
Lemma non_object_body_fails_witness :
  (~ blank key /\ ~ blank query)
  /\ result (tool key (sess_of resp_null_web) query 10)
     = Ret (Tools.msg_failed (Json.no_attribute JNull "get")).
Proof.
  split; [split; [exact key_not_blank | exact query_not_blank]|].
  refine (proj2 (non_object_body_fails no_repr key (sess_of resp_null_web) query 10
                   resp_null_web body_null_web
                   key_not_blank query_not_blank eq_refl eq_refl eq_refl)
                _ JNull eq_refl _ _).
  - vm_compute. reflexivity.
  - discriminate.
Defined.

Lemma padded_key_loads :
  exists s, load_settings env_padded_key = Ret s
            /\ Config.brave_api_key s = lit "  test_brave_key ".
Proof. eexists. vm_compute. split; reflexivity. Qed.

Lemma good_env_loads : load_settings env_good = Ret good_settings.
Proof. vm_compute. reflexivity. Qed.

(** X10 at the environment of [test_load_settings_success]. *)
Lemma loaded_keys_verbatim_witness :
  load_settings env_good = Ret good_settings
  /\ env_good !! lit "llm_api_key" = Some (lit "test_llm_key")
  /\ env_good !! lit "brave_api_key" = Some (lit "test_brave_key").
Proof.
  split; [exact good_env_loads|].
  destruct (loaded_keys_verbatim no_error_text no_lower env_good good_settings
              good_env_loads) as (H1 & H2 & _).
  split; [exact H1 | exact H2].
Defined.

Lemma random_var_no_field :
  lit "random_var"
  ∉ (lit <$> ["llm_provider"; "llm_api_key"; "llm_model"; "llm_base_url";
              "brave_api_key"; "brave_search_url"; "app_env"; "log_level";
              "debug"])%string.
Proof. apply (bool_decide_eq_false_1 _). vm_compute. reflexivity. Qed.

(** X11 at the variable of [test_extra_env_vars_ignored]. *)
Lemma other_variables_ignored_witness :
  load_settings env_good = Ret good_settings
  /\ load_settings (<[lit "random_var" := lit "should_be_ignored"]> env_good)
     = Ret good_settings.
Proof.
  split; [exact good_env_loads|].
  exact (proj1 (other_variables_ignored no_error_text no_lower env_good
                  (lit "random_var") (lit "should_be_ignored") random_var_no_field)
               good_settings good_env_loads).
Defined.

Lemma blank_key_load_fails :
  Config.load_settings error_listing ascii_lowercase env_blank_key
  = Raise (ValueError
             (lit "Failed to load settings: 1 validation error for Settings" ++ nl
              ++ lit "brave_api_key" ++ nl
              ++ lit "  Value error, API key cannot be empty" ++ nl
              ++ lit "Make sure to set BRAVE_API_KEY in your .env file")).
Proof. vm_compute. reflexivity. Qed.

(** X12 at the environment of [test_empty_api_keys_validation]: the error
    names the field of the Brave key, so the line about [BRAVE_API_KEY]
    follows it, and no line about [LLM_API_KEY]. *)
Lemma load_error_is_wrapped_witness :
  Config.load_settings error_listing ascii_lowercase env_blank_key
  = Raise (ValueError
             (lit "Failed to load settings: 1 validation error for Settings" ++ nl
              ++ lit "brave_api_key" ++ nl
              ++ lit "  Value error, API key cannot be empty" ++ nl
              ++ lit "Make sure to set BRAVE_API_KEY in your .env file"))
  /\ Config.Settings_init error_listing env_blank_key
     = Raise (Exn OrdinaryException
                (lit "1 validation error for Settings" ++ nl
                 ++ lit "brave_api_key" ++ nl
                 ++ lit "  Value error, API key cannot be empty")).
Proof.
  split; [exact blank_key_load_fails|].
  refine (eq_trans
    (proj1 (load_error_is_wrapped error_listing ascii_lowercase
              env_blank_key _ blank_key_load_fails)) _).
  vm_compute. reflexivity.
Defined.

Lemma good_create :
  Dependencies.create no_error_text no_lower env_good good_client None
  = ([EvClientCreate],
     Ret {| Dependencies.brave_api_key := lit "test_brave_key";
            Dependencies.session := good_client;
            Dependencies.session_id := None |}).
Proof. vm_compute. reflexivity. Qed.

(** X13 at the dependencies of the good environment. *)
Lemma created_dependencies_search_witness :
  ~ blank query
  /\ count_gets
       (trace (Agent.search_web no_repr
                 {| Dependencies.brave_api_key := lit "test_brave_key";
                    Dependencies.session := good_client;
                    Dependencies.session_id := None |} query 10)) = 1%nat.
Proof.
  split; [exact query_not_blank|].
  exact (proj1 (proj2 (created_dependencies_search no_repr no_error_text no_lower
                         env_good good_client None _ _ query 10
                         good_create query_not_blank))).
Defined.

(** X14 at a client whose [aclose()] raises: the summary of the run is
    lost. *)
Lemma close_failure_replaces_outcome_witness :
  load_settings env_good = Ret good_settings
  /\ result (Agent.run_research no_error_text no_lower quick_run
               env_good failing_close_client query None 10)
     = Raise (Exn OrdinaryException (lit "Already closed")).
Proof.
  split; [exact good_env_loads|].
  exact (proj1 (close_failure_replaces_outcome no_error_text no_lower
                  quick_run quick_run env_good failing_close_client query None 10
                  good_settings good_env_loads)).
Defined.

(** The validation of the agent pattern on a source that holds every
    pattern: six patterns are reported found, then the seventh check fails
    on its [bool]. *)
Example agent_pattern_on_complete_source :
  validate_agent_pattern fs_agent_only =
    ([MAGNIFIER ++ lit " Validating Agent Pattern...";
      CHECK ++ lit " Agent creation pattern found";
      CHECK ++ lit " System prompt pattern found";
      CHECK ++ lit " Tool decorator pattern found";
      CHECK ++ lit " RunContext usage pattern found";
      CHECK ++ lit " Async tool function pattern found";
      CHECK ++ lit " String return type pattern found";
      CROSS ++ lit " Agent pattern validation failed: "
        ++ lit "'in <string>' requires string as left operand, not bool"],
     Ret false).
Proof. vm_compute. reflexivity. Qed.

(** In a directory holding only [agent.py], the structure check lists the
    eight other files, and the import check stops at [tools.py]. *)
Example structure_and_imports_on_agent_only :
  validate_agent_structure fs_agent_only =
    ([MAGNIFIER ++ lit " Validating Agent Structure...";
      CROSS ++ lit " Missing files: ['tools.py', 'settings.py', 'dependencies.py', "
        ++ lit "'providers.py', '__init__.py', '.env.example', '.gitignore', "
        ++ lit "'requirements.txt']"],
     Ret false)
  /\ validate_imports fs_agent_only =
       ([MAGNIFIER ++ lit " Validating Import Structure...";
         CHECK ++ lit " agent.py structure valid";
         CROSS ++ lit " tools.py validation failed: "
           ++ lit "[Errno 2] No such file or directory: 'tools.py'"],
        Ret false).
Proof. split; vm_compute; reflexivity. Qed.

End MoreRuns.
